(** * Drey CLI: the dispatch and streaming engine, embedded and verified

    A shallow embedding of [drey_cli/ai_helper.py] and [drey_cli/main.py].

    Conventions of the embedding.
    - A Python [str] is a [str]: a sequence of Unicode code points, each a
      number.  A literal between double quotes stands for the code points of
      its text.  White space ([str.strip], [str.rstrip], [str.split]) is
      the set of code points CPython treats as such.  Case mapping
      ([str.lower], [str.upper]) is Unicode's and is not reproduced here:
      the two functions are parameters of the definitions that call them,
      and the two facts about [str.lower] that some theorems need are
      stated where they are used.
    - The widgets the handlers write to are fields of one application record;
      [output.write (Text (s, style))] appends a [Text] to the output log.
    - The operating system and the network are oracles over an abstract
      world [W]; every call the program makes to them is recorded in a trace
      of effects, so that "no process was spawned" and "no request was
      sent" are statements about that trace.
    - A Python exception that a handler catches is a value of [exn]. *)

From Stdlib Require Import List ZArith NArith Lia Bool Arith.
From Stdlib.Strings Require Import Byte.
Import ListNotations.
Open Scope list_scope.

(** ** Texts *)

Inductive str : Type :=
| EmptyStr
| Str (c : N) (r : str).

(** Reading and printing the literals: UTF-8 to code points and back. *)
Module Utf8.

Fixpoint of_list (l : list N) : str :=
  match l with
  | [] => EmptyStr
  | c :: r => Str c (of_list r)
  end.

Fixpoint to_list (s : str) : list N :=
  match s with
  | EmptyStr => []
  | Str c r => c :: to_list r
  end.

Fixpoint decode (bs : list N) : list N :=
  match bs with
  | [] => []
  | b :: r =>
      if (b <? 128)%N then b :: decode r
      else if (b <? 224)%N then
        match r with
        | c1 :: r1 => ((b - 192) * 64 + (c1 - 128))%N :: decode r1
        | _ => []
        end
      else if (b <? 240)%N then
        match r with
        | c1 :: c2 :: r2 =>
            ((b - 224) * 4096 + (c1 - 128) * 64 + (c2 - 128))%N :: decode r2
        | _ => []
        end
      else
        match r with
        | c1 :: c2 :: c3 :: r3 =>
            ((b - 240) * 262144 + (c1 - 128) * 4096 + (c2 - 128) * 64
             + (c3 - 128))%N :: decode r3
        | _ => []
        end
  end.

Definition encode_char (c : N) : list N :=
  if (c <? 128)%N then [c]
  else if (c <? 2048)%N then [192 + c / 64; 128 + c mod 64]%N
  else if (c <? 65536)%N then
    [224 + c / 4096; 128 + (c / 64) mod 64; 128 + c mod 64]%N
  else [240 + c / 262144; 128 + (c / 4096) mod 64; 128 + (c / 64) mod 64;
        128 + c mod 64]%N.

Definition byte_of (n : N) : byte :=
  match Byte.of_N n with Some b => b | None => x00 end.

Definition of_bytes (bs : list byte) : str :=
  of_list (decode (map Byte.to_N bs)).

Definition to_bytes (s : str) : list byte :=
  map byte_of (flat_map encode_char (to_list s)).

End Utf8.

Declare Scope str_scope.
Delimit Scope str_scope with str.
Bind Scope str_scope with str.
String Notation str Utf8.of_bytes Utf8.to_bytes : str_scope.

(** [a + b] *)
Fixpoint append (a b : str) : str :=
  match a with
  | EmptyStr => b
  | Str c r => Str c (append r b)
  end.

Notation "a ++ b" := (append a b) : str_scope.

Open Scope str_scope.
Open Scope list_scope.

(** ** Python str primitives *)

Module Py.

(** The code points [str.strip], [str.rstrip] and [str.split] take for
    white space: TAB, LF, VT, FF, CR, FS, GS, RS, US and space below 128,
    and above it U+0085, U+00A0, U+1680, U+2000 to U+200A, U+2028, U+2029,
    U+202F, U+205F and U+3000. *)
Definition isspace (c : N) : bool :=
  (((9 <=? c) && (c <=? 13)) || ((28 <=? c) && (c <=? 32))
   || (c =? 133) || (c =? 160) || (c =? 5760)
   || ((8192 <=? c) && (c <=? 8202))
   || (c =? 8232) || (c =? 8233) || (c =? 8239) || (c =? 8287)
   || (c =? 12288))%N.

(** [len(s)] *)
Fixpoint len (s : str) : nat :=
  match s with
  | EmptyStr => O
  | Str _ r => S (len r)
  end.

(** [a == b] *)
Fixpoint eqb (a b : str) : bool :=
  match a, b with
  | EmptyStr, EmptyStr => true
  | Str x a', Str y b' => N.eqb x y && eqb a' b'
  | _, _ => false
  end.

(** [str.lower] and [str.upper] on texts of code points below 128, where
    they change the letters A to Z and a to z only. *)
Definition ascii_lower_char (c : N) : N :=
  if ((65 <=? c) && (c <=? 90))%N then (c + 32)%N else c.

Fixpoint ascii_lower (s : str) : str :=
  match s with
  | EmptyStr => EmptyStr
  | Str c r => Str (ascii_lower_char c) (ascii_lower r)
  end.

Definition ascii_upper_char (c : N) : N :=
  if ((97 <=? c) && (c <=? 122))%N then (c - 32)%N else c.

Fixpoint ascii_upper (s : str) : str :=
  match s with
  | EmptyStr => EmptyStr
  | Str c r => Str (ascii_upper_char c) (ascii_upper r)
  end.

(** [s.isascii()] *)
Fixpoint is_ascii (s : str) : bool :=
  match s with
  | EmptyStr => true
  | Str c r => (c <? 128)%N && is_ascii r
  end.

(** [s.startswith(p)] *)
Fixpoint startswith (s p : str) {struct p} : bool :=
  match p, s with
  | EmptyStr, _ => true
  | Str _ _, EmptyStr => false
  | Str a p', Str b s' => N.eqb a b && startswith s' p'
  end.

(** [sub in s] for two texts *)
Fixpoint contains (sub s : str) : bool :=
  startswith s sub ||
  match s with
  | EmptyStr => false
  | Str _ r => contains sub r
  end.

(** [s[n:]] for [n >= 0] *)
Fixpoint drop (n : nat) (s : str) : str :=
  match n, s with
  | O, _ => s
  | S _, EmptyStr => EmptyStr
  | S n', Str _ r => drop n' r
  end.

(** [bool(s)]: a text is truthy when it is not empty *)
Definition truthy (s : str) : bool :=
  match s with EmptyStr => false | Str _ _ => true end.

Fixpoint lstrip (s : str) : str :=
  match s with
  | EmptyStr => EmptyStr
  | Str c r => if isspace c then lstrip r else s
  end.

Fixpoint rstrip (s : str) : str :=
  match s with
  | EmptyStr => EmptyStr
  | Str c r =>
      match rstrip r with
      | EmptyStr => if isspace c then EmptyStr else Str c EmptyStr
      | r' => Str c r'
      end
  end.

(** [s.strip()] *)
Definition strip (s : str) : str := rstrip (lstrip s).


(** [s.split()]: the maximal runs of characters that are not white space;
    [cur] is the run being read. *)
Fixpoint split_from (cur s : str) : list str :=
  match s with
  | EmptyStr => if truthy cur then [cur] else []
  | Str c r =>
      if isspace c
      then (if truthy cur then cur :: split_from EmptyStr r
            else split_from EmptyStr r)
      else split_from (cur ++ Str c EmptyStr)%str r
  end.

Definition split (s : str) : list str := split_from EmptyStr s.

(** [s.split(sep)] for a one-character separator: always at least one piece. *)
Fixpoint split_on_from (sep : N) (cur s : str) : list str :=
  match s with
  | EmptyStr => [cur]
  | Str c r =>
      if N.eqb c sep then cur :: split_on_from sep EmptyStr r
      else split_on_from sep (cur ++ Str c EmptyStr)%str r
  end.

Definition split_on (sep : N) (s : str) : list str :=
  split_on_from sep EmptyStr s.

(** The decimal digits of a number, most significant first *)
Fixpoint digits (d : Decimal.uint) : str :=
  match d with
  | Decimal.Nil => EmptyStr
  | Decimal.D0 d' => Str 48 (digits d')
  | Decimal.D1 d' => Str 49 (digits d')
  | Decimal.D2 d' => Str 50 (digits d')
  | Decimal.D3 d' => Str 51 (digits d')
  | Decimal.D4 d' => Str 52 (digits d')
  | Decimal.D5 d' => Str 53 (digits d')
  | Decimal.D6 d' => Str 54 (digits d')
  | Decimal.D7 d' => Str 55 (digits d')
  | Decimal.D8 d' => Str 56 (digits d')
  | Decimal.D9 d' => Str 57 (digits d')
  end.

(** [str(n)] for an integer *)
Definition str_of_int (n : Z) : str :=
  match Z.to_int n with
  | Decimal.Pos Decimal.Nil => "0"%str
  | Decimal.Pos d => digits d
  | Decimal.Neg d => ("-" ++ digits d)%str
  end.

(** [l[-n:]] for [n > 0]: the last [n] elements, all of them when fewer. *)
Definition last_n {A : Type} (n : nat) (l : list A) : list A :=
  skipn (length l - n) l.

(** [l[i]] with Python's negative indices; [None] is [IndexError]. *)
Definition index {A : Type} (l : list A) (i : Z) : option A :=
  let len := Z.of_nat (length l) in
  let j := if (i <? 0)%Z then (i + len)%Z else i in
  if ((0 <=? j) && (j <? len))%Z then nth_error l (Z.to_nat j) else None.

Definition LF : N := 10%N.
Definition TAB : N := 9%N.
Definition nl : str := Str LF EmptyStr.
Definition tab : str := Str TAB EmptyStr.

(** [s[:n]] for [n >= 0] *)
Fixpoint take (n : nat) (s : str) : str :=
  match n, s with
  | O, _ => EmptyStr
  | S _, EmptyStr => EmptyStr
  | S n', Str c r => Str c (take n' r)
  end.

End Py.

Arguments Py.isspace : simpl never.

(** ** ai_helper.py *)

Module AiHelper.

(** Quick command suggestions without API: the dict literal, in insertion
    order. *)
Definition QUICK_SUGGESTIONS : list (str * str) :=
  [ ("find large files", "find . -type f -size +100M -exec ls -lh {} \;");
    ("disk usage", "du -sh */ | sort -rh | head -20");
    ("memory usage", "free -h && echo '---' && ps aux --sort=-%mem | head -10");
    ("cpu usage", "top -bn1 | head -20");
    ("running processes", "ps aux --sort=-%cpu | head -20");
    ("listening ports", "ss -tulpn");
    ("docker running",
      ("docker ps --format 'table {{.Names}}" ++ Py.tab ++ "{{.Status}}"
         ++ Py.tab ++ "{{.Ports}}'")%str);
    ("docker logs", "docker logs --tail 100 -f CONTAINER_NAME");
    ("git status", "git status -sb");
    ("git log", "git log --oneline --graph -20");
    ("find text in files", "grep -rn 'SEARCH_TERM' .");
    ("watch file changes", "watch -n 1 'ls -la'");
    ("system info", "uname -a && lsb_release -a");
    ("network info", "ip addr show && echo '---' && ip route");
    ("kill process", "pkill -f PROCESS_NAME  # or: kill -9 PID");
    ("compress folder", "tar -czvf archive.tar.gz FOLDER/");
    ("extract archive", "tar -xzvf archive.tar.gz");
    ("file permissions", "chmod 755 FILE  # rwxr-xr-x");
    ("change owner", "chown user:group FILE");
    ("cron jobs", "crontab -l  # list | crontab -e  # edit") ].

(** The [for key, command in items: if ...: return command] loop of
    [get_quick_suggestion], over the remaining items. *)
Fixpoint quick_scan (items : list (str * str)) (query_lower : str)
  : option str :=
  match items with
  | [] => None
  | (key, command) :: rest =>
      if Py.contains key query_lower
         || forallb (fun word => Py.contains word query_lower) (Py.split key)
      then Some command
      else quick_scan rest query_lower
  end.

Section QuickAnswers.

(** [str.lower] *)
Variable lower : str -> str.

Definition get_quick_suggestion (query : str) : option str :=
  let query_lower := lower query in
  quick_scan QUICK_SUGGESTIONS query_lower.

End QuickAnswers.

(** *** Values and exceptions *)

(** What [json.loads] returns, and so what the generator may yield. *)
#[warnings="-register-all"] Inductive json : Type :=
| JNull
| JBool (b : bool)
| JInt (n : Z)
| JFloat (repr : str)
| JStr (s : str)
| JList (items : list json)
| JDict (fields : list (str * json)).

(** [d.get(key)] / [key in d] on a dict *)
Fixpoint lookup (key : str) (fields : list (str * json)) : option json :=
  match fields with
  | [] => None
  | (k, v) :: rest => if Py.eqb k key then Some v else lookup key rest
  end.

(** [v == s] for a str literal [s] *)
Definition is_str (s : str) (v : json) : bool :=
  match v with JStr t => Py.eqb t s | _ => false end.

(** The exceptions the two modules meet. *)
Inductive exn : Type :=
| TimeoutException
| ConnectError
| AttributeError (obj : json) (attr : str)
| TypeError (obj : json)
| OtherException (msg : str).

Inductive SystemPrompt : Type := SYSTEM_PROMPT.

Record request : Type := Request {
  url : str;
  x_api_key : str;
  anthropic_version : str;
  content_type : str;
  model : str;
  max_tokens : Z;
  system : SystemPrompt;
  stream : bool;
  user_content : str
}.

(** What [json.loads] does with a payload: it returns a value, raises
    [json.JSONDecodeError], or raises something else ([ValueError] for a
    number too long, [RecursionError] for a nesting too deep). *)
Inductive loaded : Type :=
| Loaded (v : json)
| JSONDecodeError
| LoadRaises (e : exn).

(** What [client.stream] and the response give back: an exception before any
    response, or a status code, what [(await response.aread()).decode()]
    gives (the body text, or the exception the read or the decoding
    raises), and the lines [aiter_lines] delivers, possibly cut short by an
    exception. *)
Inductive http_result : Type :=
| HttpRaises (e : exn)
| HttpResponse (status_code : Z) (body : exn + str) (lines : list str)
               (cut : option exn).

Section Assistant.

Variable W : Type.
(** [json.loads] *)
Variable json_loads : str -> loaded.
(** [str(e)] *)
Variable exn_message : exn -> str.
Variable http_stream : request -> W -> http_result * W.

(** The body of the [try] inside the loop, once [json.loads] has returned
    [event]: the fragments yielded, or the exception raised. *)
Definition on_event (event : json) : exn + list json :=
  match event with
  | JDict fields =>
      match lookup "type" fields with
      | Some ty =>
          if is_str "content_block_delta" ty then
            let delta :=
              match lookup "delta" fields with
              | Some d => d
              | None => JDict []
              end in
            match delta with
            | JDict dfields =>
                match lookup "text" dfields with
                | Some t => inr [t]
                | None => inr []
                end
            | JStr s => if Py.contains "text" s then inl (TypeError delta) else inr []
            | JList items =>
                if existsb (is_str "text") items then inl (TypeError delta)
                else inr []
            | _ => inl (TypeError delta)
            end
          else inr []
      | None => inr []
      end
  | _ => inl (AttributeError event "get")
  end.

(** [async for line in response.aiter_lines(): ...]: the fragments yielded
    and the exception that ended the loop, if one did. *)
Fixpoint read_lines (lines : list str) (cut : option exn)
  : list json * option exn :=
  match lines with
  | [] => ([], cut)
  | line :: rest =>
      if Py.startswith line "data: " then
        let data := Py.drop 6 line in
        if Py.eqb data "[DONE]" then ([], None)
        else
          match json_loads data with
          | JSONDecodeError => read_lines rest cut
          | LoadRaises e => ([], Some e)
          | Loaded event =>
              match on_event event with
              | inl e => ([], Some e)
              | inr ys => let '(more, r) := read_lines rest cut in (ys ++ more, r)
              end
          end
      else read_lines rest cut
  end.

(** The three [except] clauses of [ask]. *)
Definition on_exception (e : exn) : list json :=
  match e with
  | TimeoutException =>
      [JStr ("⚠️  Request timed out. Please try again." ++ Py.nl)%str]
  | ConnectError =>
      [JStr ("⚠️  Could not connect to AI service. Check your internet connection."
             ++ Py.nl)%str]
  | _ => [JStr ("⚠️  Error: " ++ exn_message e ++ Py.nl)%str]
  end.

Definition not_configured : list json :=
  [ JStr ("⚠️  AI not configured. Set ANTHROPIC_API_KEY environment variable."
          ++ Py.nl)%str;
    JStr (Py.nl ++ "To set it up:" ++ Py.nl)%str;
    JStr ("  export ANTHROPIC_API_KEY='your-api-key'" ++ Py.nl)%str;
    JStr (Py.nl ++ "Get your API key from: https://console.anthropic.com/"
          ++ Py.nl)%str ].

(** The [headers] and the [payload] of [ask], with [self.base_url] and
    [self.model] as [__init__] sets them. *)
Definition make_request (api_key question : str) : request :=
  {| url := "https://api.anthropic.com/v1/messages";
     x_api_key := api_key;
     anthropic_version := "2023-06-01";
     content_type := "application/json";
     model := "claude-sonnet-4-20250514";
     max_tokens := 1024;
     system := SYSTEM_PROMPT;
     stream := true;
     user_content := question |}.

(** [AIAssistant.ask]: the fragments the generator yields when it is run to
    its end, the requests it sent, and the world afterwards. *)
Definition ask (api_key question : str) (w : W)
  : list json * list request * W :=
  if negb (Py.truthy api_key) then (not_configured, [], w)
  else
    let req := make_request api_key question in
    let '(res, w') := http_stream req w in
    match res with
    | HttpRaises e => (on_exception e, [req], w')
    | HttpResponse status_code body lines cut =>
        if negb (status_code =? 200)%Z then
          match body with
          | inr error_text =>
              ([JStr ("⚠️  API Error: " ++ Py.str_of_int status_code ++ Py.nl
                      ++ error_text ++ Py.nl)%str], [req], w')
          | inl e => (on_exception e, [req], w')
          end
        else
          let '(ys, r) := read_lines lines cut in
          match r with
          | None => (ys, [req], w')
          | Some e => (ys ++ on_exception e, [req], w')
          end
    end.

(** [AIAssistant.is_configured] *)
Definition is_configured (api_key : str) : bool := Py.truthy api_key.

(** [sep.join(parts)] with an empty separator: the first part that is not a
    str raises [TypeError]. *)
Fixpoint join (parts : list json) : exn + str :=
  match parts with
  | [] => inr EmptyStr
  | JStr s :: rest =>
      match join rest with
      | inr t => inr (s ++ t)%str
      | inl e => inl e
      end
  | v :: _ => inl (TypeError v)
  end.

(** [AIAssistant.ask_sync]: every part of [ask] is collected, then joined. *)
Definition ask_sync (api_key question : str) (w : W)
  : (exn + str) * list request * W :=
  let '(response_parts, reqs, w') := ask api_key question w in
  (join response_parts, reqs, w').

End Assistant.

End AiHelper.

(** ** main.py *)

Module Main.

Import AiHelper.

(** Command suggestions database *)
Definition COMMAND_SUGGESTIONS : list (str * list str) :=
  [ ("git", ["git status"; "git add ."; "git commit -m ''"; "git push";
             "git pull"; "git log --oneline"; "git branch"; "git checkout"]);
    ("docker", ["docker ps"; "docker ps -a"; "docker images";
                "docker compose up -d"; "docker compose down"; "docker logs";
                "docker exec -it"]);
    ("system", ["htop"; "df -h"; "free -h"; "uname -a"; "uptime"; "whoami";
                "pwd"; "ls -la"]);
    ("network", ["ip addr"; "ping"; "curl"; "wget"; "netstat -tulpn";
                 "ss -tulpn"]);
    ("files", ["ls -la"; "find . -name"; "grep -r"; "cat"; "head"; "tail -f";
               "chmod"; "chown"]);
    ("process", ["ps aux"; "kill"; "killall"; "top"; "htop"; "pgrep";
                 "pkill"]) ].

(** [ALL_COMMANDS = []] extended with every category's list in turn *)
Definition ALL_COMMANDS : list str :=
  fold_left (fun acc entry => acc ++ snd entry) COMMAND_SUGGESTIONS [].

(** A [rich.text.Text]: a piece of text and the style it is written in. *)
Record Text : Type := mkText { content : str; style : str }.

(** *** CommandInput *)

Record CommandInput : Type := mkInput {
  value : str;
  history : list str;
  history_index : Z
}.

(** What reading [~/.bash_history] can give. *)
Inductive history_file : Type :=
| NoFile
| ReadRaises
| FileLines (lines : list str).

(** [CommandInput.__init__] followed by [load_history] *)
Definition load_history (f : history_file) : CommandInput :=
  let fresh := {| value := ""; history := []; history_index := (-1)%Z |} in
  match f with
  | FileLines lines =>
      {| value := "";
         history :=
           map Py.strip
             (filter (fun line => Py.truthy (Py.strip line))
                     (Py.last_n 500 lines));
         history_index := (-1)%Z |}
  | _ => fresh
  end.

Inductive Key : Type := Up | Down | OtherKey.

(** [CommandInput.on_key]; [None] is the [IndexError] of [history[...]]. *)
Definition on_key (key : Key) (inp : CommandInput) : option CommandInput :=
  match key with
  | Up =>
      if negb (Nat.eqb (length (history inp)) 0)
         && (history_index inp <? Z.of_nat (length (history inp)) - 1)%Z
      then
        let i := (history_index inp + 1)%Z in
        match Py.index (history inp) (- (i + 1))%Z with
        | Some v => Some {| value := v; history := history inp;
                            history_index := i |}
        | None => None
        end
      else Some inp
  | Down =>
      if (history_index inp >? 0)%Z then
        let i := (history_index inp - 1)%Z in
        match Py.index (history inp) (- (i + 1))%Z with
        | Some v => Some {| value := v; history := history inp;
                            history_index := i |}
        | None => None
        end
      else if (history_index inp =? 0)%Z then
        Some {| value := ""; history := history inp;
                history_index := (-1)%Z |}
      else Some inp
  | OtherKey => Some inp
  end.

(** *** DreyCLI *)

(** The calls the application makes to the world outside it. *)
Inductive effect : Type :=
| Chdir (path : str)
| Popen (command cwd : str)
| HttpPost (req : request)
| AppExit.

(** What a spawned process does: [Popen] raises, or the process runs; then
    [reads] are the successive results of [stdout.readline] and [ending] is
    the return code, or the exception that interrupted the reading. *)
Inductive process : Type :=
| SpawnRaises (e : exn)
| Spawned (reads : list str) (ending : exn + Z).

Record App : Type := mkApp {
  cwd : str;
  current_suggestions : list str;
  api_key : str;
  output : list Text;
  cwd_label : str;
  suggestions : list str;
  suggestions_visible : bool;
  input : CommandInput;
  trace : list effect
}.

Definition write (t : Text) (app : App) : App :=
  {| cwd := cwd app; current_suggestions := current_suggestions app;
     api_key := api_key app; output := output app ++ [t];
     cwd_label := cwd_label app; suggestions := suggestions app;
     suggestions_visible := suggestions_visible app; input := input app;
     trace := trace app |}.

Definition clear (app : App) : App :=
  {| cwd := cwd app; current_suggestions := current_suggestions app;
     api_key := api_key app; output := [];
     cwd_label := cwd_label app; suggestions := suggestions app;
     suggestions_visible := suggestions_visible app; input := input app;
     trace := trace app |}.

Definition record_effects (es : list effect) (app : App) : App :=
  {| cwd := cwd app; current_suggestions := current_suggestions app;
     api_key := api_key app; output := output app;
     cwd_label := cwd_label app; suggestions := suggestions app;
     suggestions_visible := suggestions_visible app; input := input app;
     trace := trace app ++ es |}.

Definition set_cwd (d : str) (app : App) : App :=
  {| cwd := d; current_suggestions := current_suggestions app;
     api_key := api_key app; output := output app;
     cwd_label := cwd_label app; suggestions := suggestions app;
     suggestions_visible := suggestions_visible app; input := input app;
     trace := trace app |}.

Definition set_cwd_label (l : str) (app : App) : App :=
  {| cwd := cwd app; current_suggestions := current_suggestions app;
     api_key := api_key app; output := output app;
     cwd_label := l; suggestions := suggestions app;
     suggestions_visible := suggestions_visible app; input := input app;
     trace := trace app |}.

Definition set_suggestions (items : list str) (visible : bool) (app : App)
  : App :=
  {| cwd := cwd app; current_suggestions := current_suggestions app;
     api_key := api_key app; output := output app;
     cwd_label := cwd_label app; suggestions := items;
     suggestions_visible := visible; input := input app;
     trace := trace app |}.

Definition set_current_suggestions (items : list str) (app : App) : App :=
  {| cwd := cwd app; current_suggestions := items;
     api_key := api_key app; output := output app;
     cwd_label := cwd_label app; suggestions := suggestions app;
     suggestions_visible := suggestions_visible app; input := input app;
     trace := trace app |}.

Definition set_input (inp : CommandInput) (app : App) : App :=
  {| cwd := cwd app; current_suggestions := current_suggestions app;
     api_key := api_key app; output := output app;
     cwd_label := cwd_label app; suggestions := suggestions app;
     suggestions_visible := suggestions_visible app; input := inp;
     trace := trace app |}.

(** [x in l] for a list of strings *)
Definition mem (x : str) (l : list str) : bool :=
  existsb (Py.eqb x) l.

Section Suggestions.

(** [str.lower] *)
Variable lower : str -> str.

(** The [for hist_cmd in reversed(history[-50:])] loop of
    [update_suggestions]. *)
Fixpoint search_history (text_lower : str) (hist : list str)
  (matches : list str) : list str :=
  match hist with
  | [] => matches
  | hist_cmd :: rest =>
      if Py.contains text_lower (lower hist_cmd) && negb (mem hist_cmd matches)
      then search_history text_lower rest (matches ++ [hist_cmd])
      else search_history text_lower rest matches
  end.

(** [DreyCLI.update_suggestions] *)
Definition update_suggestions (text : str) (app : App) : App :=
  let app := set_suggestions [] (suggestions_visible app) app in
  if negb (Py.truthy text) || Py.startswith text "?" then
    set_suggestions (suggestions app) false app
  else
    let text_lower := lower text in
    let matches :=
      filter (fun cmd => Py.contains text_lower (lower cmd)) ALL_COMMANDS in
    let matches :=
      search_history text_lower
        (rev (Py.last_n 50 (history (input app)))) matches in
    match matches with
    | _ :: _ =>
        let app := set_current_suggestions (firstn 8 matches) app in
        set_suggestions (suggestions app ++ current_suggestions app) true app
    | [] => set_suggestions (suggestions app) false app
    end.

End Suggestions.

Section Handlers.

Variable W : Type.
(** [str.lower] *)
Variable lower : str -> str.
Variable json_loads : str -> loaded.
Variable exn_message : exn -> str.
Variable http_stream : request -> W -> http_result * W.
(** [os.path.expanduser], [os.chdir], [os.getcwd] and [subprocess.Popen] *)
Variable expanduser : str -> str.
Variable os_chdir : str -> W -> exn + W.
Variable os_getcwd : W -> str.
Variable popen : str -> str -> W -> process * W.

(** [for i, line in enumerate(lines): ...] of [ask_ai]; [later] is [i > 0]. *)
Fixpoint write_lines (later : bool) (lines : list str) (app : App) : App :=
  match lines with
  | [] => app
  | line :: rest =>
      let app :=
        if later then write (mkText (Py.nl ++ "  ") "white") app else app in
      let app :=
        if Py.truthy line then write (mkText line "white") app else app in
      write_lines true rest app
  end.

(** [async for chunk in self.ai.ask(query): ...] inside its [try]: a chunk
    that is not a str has no [split], and the [except] clause reports
    it. *)
Fixpoint drain (chunks : list json) (app : App) : App :=
  match chunks with
  | [] => app
  | JStr chunk :: rest =>
      drain rest (write_lines false (Py.split_on Py.LF chunk) app)
  | v :: _ =>
      write (mkText (Py.nl ++ "  Error: "
                     ++ exn_message (AttributeError v "split") ++ Py.nl)
                    "bold red") app
  end.

(** [DreyCLI.ask_ai] *)
Definition ask_ai (query : str) (app : App) (w : W) : App * W :=
  let app :=
    write (mkText (Py.nl ++ "  ðŸ¤– AI Query:" ++ Py.nl) "bold magenta") app in
  let app :=
    write (mkText ("  ? " ++ query ++ Py.nl ++ Py.nl) "bold yellow") app in
  let app :=
    match get_quick_suggestion lower query with
    | Some quick =>
        if Py.truthy quick then
          let app :=
            write (mkText ("  ðŸ’¡ Quick Suggestion:" ++ Py.nl) "bold green")
                  app in
          let app :=
            write (mkText ("  " ++ quick ++ Py.nl ++ Py.nl) "bold white") app in
          write (mkText ("  (Asking AI for more details...)" ++ Py.nl ++ Py.nl)
                        "dim") app
        else app
    | None => app
    end in
  let app := write (mkText "  " "white") app in
  let '(chunks, reqs, w') :=
    ask W json_loads exn_message http_stream (api_key app) query w in
  let app := record_effects (map HttpPost reqs) app in
  let app := drain chunks app in
  (write (mkText (Py.nl ++ Py.nl) "white") app, w').

(** The [cd] branch of [run_command], from [path = command[3:].strip()]. *)
Definition change_directory (command : str) (app : App) (w : W) : App * W :=
  let path := Py.strip (Py.drop 3 command) in
  let path :=
    if Py.eqb path "~" then expanduser "~"
    else if Py.startswith path "~/" then expanduser path
    else path in
  let app := record_effects [Chdir path] app in
  match os_chdir path w with
  | inr w' =>
      let app := set_cwd (os_getcwd w') app in
      let app := set_cwd_label ("  " ++ cwd app) app in
      (write (mkText ("  Changed to: " ++ cwd app ++ Py.nl) "dim") app, w')
  | inl e =>
      (write (mkText ("  Error: " ++ exn_message e ++ Py.nl) "bold red") app, w)
  end.

(** [for line in iter(process.stdout.readline, ''): ...] *)
Fixpoint read_output (reads : list str) (app : App) : App :=
  match reads with
  | [] => app
  | line :: rest =>
      if Py.eqb line "" then app
      else
        let app :=
          if Py.truthy line
          then write (mkText ("  " ++ Py.rstrip line ++ Py.nl) "white") app
          else app in
        read_output rest app
  end.

(** The last part of [run_command], from [# Run external command]. *)
Definition run_external (command : str) (app : App) (w : W) : App * W :=
  let '(p, w') := popen command (cwd app) w in
  let app := record_effects [Popen command (cwd app)] app in
  match p with
  | SpawnRaises e =>
      (write (mkText ("  Error: " ++ exn_message e ++ Py.nl) "bold red") app, w')
  | Spawned reads ending =>
      let app := read_output reads app in
      match ending with
      | inl e =>
          (write (mkText ("  Error: " ++ exn_message e ++ Py.nl) "bold red") app,
           w')
      | inr returncode =>
          if negb (returncode =? 0)%Z then
            (write (mkText (Py.nl ++ "  Exit code: "
                            ++ Py.str_of_int returncode ++ Py.nl) "yellow") app,
             w')
          else (app, w')
      end
  end.

(** The two lines [run_command] writes before anything else. *)
Definition show_command (command : str) (app : App) : App :=
  let app := write (mkText (Py.nl ++ "  " ++ cwd app ++ Py.nl) "bold cyan") app in
  write (mkText ("  $ " ++ command ++ Py.nl) "bold green") app.

(** [DreyCLI.run_command] *)
Definition run_command (command : str) (app : App) (w : W) : App * W :=
  let app := show_command command app in
  if Py.startswith command "cd " then change_directory command app w
  else if Py.eqb command "clear" then (clear app, w)
  else if Py.eqb command "exit" || Py.eqb command "quit" then
    (record_effects [AppExit] app, w)
  else run_external command app w.

(** The end of [on_input_submitted]: the input is emptied, the command
    recorded, the cursor reset and the suggestions hidden. *)
Definition after_submit (command : str) (app : App) : App :=
  let inp := {| value := "";
                history := history (input app) ++ [command];
                history_index := (-1)%Z |} in
  set_suggestions (suggestions app) false (set_input inp app).

(** [DreyCLI.on_input_submitted], for the command input *)
Definition on_input_submitted (submitted : str) (app : App) (w : W)
  : App * W :=
  let command := Py.strip submitted in
  if Py.truthy command then
    let '(app, w) :=
      if Py.startswith command "?" then
        let query := Py.strip (Py.drop 1 command) in
        if Py.truthy query then ask_ai query app w else (app, w)
      else if Py.startswith (lower command) "/ask " then
        let query := Py.strip (Py.drop 5 command) in
        if Py.truthy query then ask_ai query app w else (app, w)
      else run_command command app w in
    (after_submit command app, w)
  else (app, w).

End Handlers.

(** *** Help, menus and the suggestion list *)

(** [f"{cmd[:50]}{'...' if len(cmd) > 50 else ''}"] *)
Definition preview (cmd : str) : str :=
  (Py.take 50 cmd
   ++ (if (50 <? Py.len cmd)%nat then "..." else ""))%str.

(** The loop over [list(QUICK_SUGGESTIONS.items())[:8]] of [show_ai_help] *)
Fixpoint show_quick_items (items : list (str * str)) (app : App) : App :=
  match items with
  | [] => app
  | (key, cmd) :: rest =>
      let app := write (mkText ("    â€¢ " ++ key ++ ": ") "white") app in
      let app := write (mkText (preview cmd ++ Py.nl) "dim") app in
      show_quick_items rest app
  end.

(** [DreyCLI.show_ai_help], writing to the output log *)
Definition show_ai_help (app : App) : App :=
  let app :=
    write (mkText (Py.nl ++ "  ðŸ¤– AI Assistant" ++ Py.nl) "bold magenta")
          app in
  let app := write (mkText ("  â”€â”€â”€â”€â”€â”€â”€â”€â”€â”€â”€â”€â”€â”€â”€â”€â”€â”€â”€â”€â”€â”€â”€â”€â”€â”€â”€â”€â”€â”€â”€â”€â”€â”€â”€â”€â”€" ++ Py.nl) "dim") app in
  let app :=
    if is_configured (api_key app) then
      write (mkText ("  âœ“ AI is ready!" ++ Py.nl ++ Py.nl) "bold green") app
    else
      write (mkText ("  âš  API key not set. Set ANTHROPIC_API_KEY to enable."
                     ++ Py.nl ++ Py.nl) "yellow") app in
  let app := write (mkText ("  How to use:" ++ Py.nl) "bold cyan") app in
  let app := write (mkText "    ? " "bold yellow") app in
  let app := write (mkText "your question" "white") app in
  let app :=
    write (mkText ("     (e.g., ? how to find large files)" ++ Py.nl ++ Py.nl)
                  "dim") app in
  let app :=
    write (mkText ("  Quick Suggestions (no API needed):" ++ Py.nl) "bold cyan")
          app in
  let app := show_quick_items (firstn 8 QUICK_SUGGESTIONS) app in
  let app := write (mkText (Py.nl ++ "  Try: ") "bold yellow") app in
  write (mkText ("? how do I check disk space" ++ Py.nl) "white") app.

(** [COMMAND_SUGGESTIONS.get(category, [])] *)
Fixpoint category_commands (table : list (str * list str))
  (category : str) : list str :=
  match table with
  | [] => []
  | (name, commands) :: rest =>
      if Py.eqb name category then commands
      else category_commands rest category
  end.

(** The [for cmd in ...] loop of [show_category_commands] *)
Fixpoint show_commands (commands : list str) (app : App) : App :=
  match commands with
  | [] => app
  | cmd :: rest =>
      show_commands rest
        (write (mkText ("    â€¢ " ++ cmd ++ Py.nl) "white") app)
  end.

Section Menus.

(** [str.lower] and [str.upper] *)
Variable lower : str -> str.
Variable upper : str -> str.

(** [DreyCLI.show_category_commands] *)
Definition show_category_commands (category : str) (app : App) : App :=
  let app :=
    write (mkText (Py.nl ++ "  " ++ upper category ++ " Commands:" ++ Py.nl)
                  "bold cyan") app in
  let app :=
    show_commands (category_commands COMMAND_SUGGESTIONS category) app in
  write (mkText (Py.nl ++ "  Type or click a command to run it." ++ Py.nl)
                "dim") app.

(** [DreyCLI.on_button_pressed], by the id of the button *)
Definition on_button_pressed (button_id : str) (app : App) : App :=
  if Py.eqb button_id "btn-ai" then show_ai_help app
  else if Py.eqb button_id "btn-docker" then
    show_category_commands "docker" app
  else if Py.eqb button_id "btn-git" then show_category_commands "git" app
  else if Py.eqb button_id "btn-system" then
    show_category_commands "system" app
  else if Py.eqb button_id "btn-files" then
    show_category_commands "files" app
  else if Py.eqb button_id "btn-network" then
    show_category_commands "network" app
  else app.

(** The key bindings of [DreyCLI] that act on the widgets ([ctrl+c], which
    quits, apart). *)
Inductive Action : Type :=
| ActionClear
| ActionDockerMenu
| ActionGitMenu
| ActionAiHelp
| ActionHideSuggestions
| ActionShowSuggestions.

(** The [for category in COMMAND_SUGGESTIONS] loop of
    [action_show_suggestions] *)
Fixpoint show_categories (table : list (str * list str)) (app : App)
  : App :=
  match table with
  | [] => app
  | (category, _) :: rest =>
      show_categories rest
        (write (mkText ("    â€¢ " ++ category ++ Py.nl) "white") app)
  end.

(** [DreyCLI.action_show_suggestions] *)
Definition action_show_suggestions (app : App) : App :=
  if Py.truthy (value (input app)) then
    update_suggestions lower (value (input app)) app
  else
    let app :=
      write (mkText (Py.nl ++ "  Available Categories:" ++ Py.nl) "bold cyan")
            app in
    show_categories COMMAND_SUGGESTIONS app.

(** [action_clear], [action_docker_menu], [action_git_menu],
    [action_ai_help], [action_hide_suggestions], [action_show_suggestions] *)
Definition run_action (a : Action) (app : App) : App :=
  match a with
  | ActionClear => clear app
  | ActionDockerMenu => show_category_commands "docker" app
  | ActionGitMenu => show_category_commands "git" app
  | ActionAiHelp => show_ai_help app
  | ActionHideSuggestions => set_suggestions (suggestions app) false app
  | ActionShowSuggestions => action_show_suggestions app
  end.

(** [DreyCLI.on_list_view_selected] for the suggestion list, with the text
    of the selected item's label *)
Definition on_list_view_selected (label : str) (app : App) : App :=
  let inp := {| value := label; history := history (input app);
                history_index := history_index (input app) |} in
  set_suggestions (suggestions app) false (set_input inp app).

(** [DreyCLI.on_input_changed] for the command input *)
Definition on_input_changed (new_value : str) (app : App) : App :=
  update_suggestions lower new_value app.

End Menus.

End Main.

(** ** The vocabulary of the specification *)

Module Spec.

Import AiHelper Main.

Section CaseMapping.

(** [str.lower] *)
Variable lower : str -> str.

(** Two facts about [str.lower]: on a text of code points below 128 it
    changes the letters A to Z and nothing else; and a text whose lower-case
    form starts with [/ask ] starts with a slash, no other character having a
    slash for lower case. *)
Definition lower_on_ascii : Prop :=
  forall s, Py.is_ascii s = true -> lower s = Py.ascii_lower s.

Definition lower_keeps_slash : Prop :=
  forall s, Py.startswith (lower s) "/ask " = true ->
            Py.startswith s "/" = true.

(** [ai_question line q]: [line] starts with [?], or else its lower-case
    form starts with [/ask ], and [q] is what is left of it once that
    prefix (one character, or five) and the white space around the rest are
    taken away. *)
Inductive ai_question (line : str) : str -> Prop :=
| question_mark rest :
    line = ("?" ++ rest)%str -> ai_question line (Py.strip rest)
| slash_ask :
    Py.startswith line "?" = false ->
    Py.startswith (lower line) "/ask " = true ->
    ai_question line (Py.strip (Py.drop 5 line)).


(** A key of the quick-answer table matches a question when its full text
    is contained in the lowercased question, or every one of its
    white-space-separated words is. *)
Definition key_matches (key query : str) : Prop :=
  Py.contains key (lower query) = true \/
  Forall (fun word => Py.contains word (lower query) = true) (Py.split key).

(** The catalog entries that match a text, in catalog order. *)
Definition catalog_matches (text : str) : list str :=
  filter (fun cmd => Py.contains (lower text) (lower cmd)) ALL_COMMANDS.

End CaseMapping.

(** The test of the loop body of [get_quick_suggestion], as a boolean. *)
Definition key_test (key query_lower : str) : bool :=
  Py.contains key query_lower
  || forallb (fun word => Py.contains word query_lower) (Py.split key).

(** How the streaming protocol reads one line of the response. *)
Inductive frame : Type :=
| NotData
| Done
| Malformed
| ContentDelta (text : json)
| OtherEvent.

Section Frames.

Variable json_loads : str -> loaded.

Inductive reads_as : str -> frame -> Prop :=
| reads_not_data line :
    Py.startswith line "data: " = false -> reads_as line NotData
| reads_done : reads_as "data: [DONE]" Done
| reads_malformed payload :
    payload <> "[DONE]" -> json_loads payload = JSONDecodeError ->
    reads_as ("data: " ++ payload) Malformed
| reads_delta payload fields dfields text :
    payload <> "[DONE]" -> json_loads payload = Loaded (JDict fields) ->
    lookup "type" fields = Some (JStr "content_block_delta") ->
    lookup "delta" fields = Some (JDict dfields) ->
    lookup "text" dfields = Some text ->
    reads_as ("data: " ++ payload) (ContentDelta text)
| reads_delta_without_text payload fields :
    payload <> "[DONE]" -> json_loads payload = Loaded (JDict fields) ->
    lookup "type" fields = Some (JStr "content_block_delta") ->
    (lookup "delta" fields = None \/
     exists dfields, lookup "delta" fields = Some (JDict dfields) /\
                     lookup "text" dfields = None) ->
    reads_as ("data: " ++ payload) OtherEvent
| reads_other payload fields :
    payload <> "[DONE]" -> json_loads payload = Loaded (JDict fields) ->
    (forall ty, lookup "type" fields = Some ty ->
                is_str "content_block_delta" ty = false) ->
    reads_as ("data: " ++ payload) OtherEvent.

End Frames.

Definition is_done (f : frame) : bool :=
  match f with Done => true | _ => false end.

(** The delta texts of the frames before the first [Done]. *)
Fixpoint delta_texts (frames : list frame) : list json :=
  match frames with
  | [] => []
  | Done :: _ => []
  | ContentDelta text :: rest => text :: delta_texts rest
  | _ :: rest => delta_texts rest
  end.

(** Pressing a key [k] times; [None] if a press raised. *)
Fixpoint presses (k : nat) (key : Key) (inp : CommandInput)
  : option CommandInput :=
  match k with
  | O => Some inp
  | S k' =>
      match on_key key inp with
      | Some inp' => presses k' key inp'
      | None => None
      end
  end.

(** The input while the [k]-th most recent entry is recalled, [k >= 1]. *)
Definition recalled (h : list str) (k : nat) : CommandInput :=
  {| value := nth (k - 1) (rev h) ""; history := h;
     history_index := (Z.of_nat k - 1)%Z |}.

(** The input with no entry recalled. *)
Definition not_recalling (v : str) (h : list str) : CommandInput :=
  {| value := v; history := h; history_index := (-1)%Z |}.

(** [subseq l1 l2]: [l1] is [l2] with some elements left out. *)
Inductive subseq {A : Type} : list A -> list A -> Prop :=
| subseq_nil : subseq [] []
| subseq_skip x l1 l2 : subseq l1 l2 -> subseq l1 (x :: l2)
| subseq_keep x l1 l2 : subseq l1 l2 -> subseq (x :: l1) (x :: l2).

(** The styles that tell the kinds of output events apart. *)
Definition is_error (t : Text) : bool := Py.eqb (style t) "bold red".
Definition is_status (t : Text) : bool := Py.eqb (style t) "yellow".
Definition is_text_fragment (t : Text) : bool := Py.eqb (style t) "white".

(** What [readline] returns before it returns the empty str. *)
Fixpoint until_eof (reads : list str) : list str :=
  match reads with
  | [] => []
  | line :: rest => if Py.eqb line "" then [] else line :: until_eof rest
  end.

(** The text fragment written for one line of a process's output. *)
Definition fragment_of (line : str) : Text :=
  mkText ("  " ++ Py.rstrip line ++ Py.nl) "white".

(** A session is a spawned process or a request to the assistant. *)
Definition is_session (e : effect) : bool :=
  match e with
  | Popen _ _ | HttpPost _ => true
  | _ => false
  end.

End Spec.

(** ** A small concrete world, for examples *)

Module Demo.

Import AiHelper Main.

(** The process's current directory is all there is to this world. *)
Definition W : Type := str.

Definition dq : str := Str 34 EmptyStr.

(** [{"type": "content_block_delta", "delta": {"text": "Hi"}}] and friends *)
Definition delta_payload (text : str) : str :=
  ("{" ++ dq ++ "type" ++ dq ++ ": " ++ dq ++ "content_block_delta" ++ dq
   ++ ", " ++ dq ++ "delta" ++ dq ++ ": {" ++ dq ++ "text" ++ dq ++ ": "
   ++ dq ++ text ++ dq ++ "}}")%str.

Definition ping_payload : str :=
  ("{" ++ dq ++ "type" ++ dq ++ ": " ++ dq ++ "ping" ++ dq ++ "}")%str.

Definition two_lines : str := ("ls -la" ++ Py.nl ++ "pwd")%str.

(** The case mapping of the letters A to Z and a to z: what [str.lower] and
    [str.upper] are on the texts this world is used with. *)
Definition lower : str -> str := Py.ascii_lower.
Definition upper : str -> str := Py.ascii_upper.

(** A decoder that knows four payloads and rejects everything else. *)
Definition json_loads (payload : str) : loaded :=
  if Py.eqb payload (delta_payload "Hi ") then
    Loaded (JDict [("type", JStr "content_block_delta");
                   ("delta", JDict [("text", JStr "Hi ")])])
  else if Py.eqb payload (delta_payload "ls -la\npwd") then
    Loaded (JDict [("type", JStr "content_block_delta");
                   ("delta", JDict [("text", JStr two_lines)])])
  else if Py.eqb payload ping_payload then
    Loaded (JDict [("type", JStr "ping")])
  else if Py.eqb payload "5" then Loaded (JInt 5)
  else JSONDecodeError.

(** [type(v).__name__] *)
Definition type_name (v : json) : str :=
  match v with
  | JNull => "NoneType"
  | JBool _ => "bool"
  | JInt _ => "int"
  | JFloat _ => "float"
  | JStr _ => "str"
  | JList _ => "list"
  | JDict _ => "dict"
  end.

Definition exn_message (e : exn) : str :=
  match e with
  | TimeoutException => "timed out"
  | ConnectError => "connection refused"
  | AttributeError obj attr =>
      ("'" ++ type_name obj ++ "' object has no attribute '" ++ attr ++ "'")%str
  | TypeError _ => "bad operand type"
  | OtherException msg => msg
  end.

Definition response_lines : list str :=
  [ "event: content_block_delta";
    ("data: " ++ delta_payload "Hi ")%str;
    "";
    ("data: " ++ ping_payload)%str;
    "data: {oops";
    ("data: " ++ delta_payload "ls -la\npwd")%str;
    "data: [DONE]";
    ("data: " ++ delta_payload "Hi ")%str ].

Definition http_stream (req : request) (w : W) : http_result * W :=
  (HttpResponse 200 (inr "") response_lines None, w).

Definition expanduser (path : str) : str :=
  ("/home/drey" ++ Py.drop 1 path)%str.

Definition os_chdir (path : str) (w : W) : exn + W :=
  if Py.eqb path "/tmp" then inr "/tmp"
  else if Py.eqb path "/home/drey" then inr "/home/drey"
  else inl (OtherException
              ("[Errno 2] No such file or directory: '" ++ path ++ "'")).

Definition os_getcwd (w : W) : str := w.

Definition popen (command cwd : str) (w : W) : process * W :=
  if Py.eqb command "echo hi" then
    (Spawned [("hi" ++ Py.nl)%str] (inr 0%Z), w)
  else if Py.eqb command "false" then (Spawned [] (inr 1%Z), w)
  else (Spawned [("sh: 1: " ++ command ++ ": not found" ++ Py.nl)%str]
                (inr 127%Z), w).

Definition w0 : W := "/home/drey".

Definition app0 : App :=
  {| cwd := "/home/drey"; current_suggestions := []; api_key := "";
     output := []; cwd_label := "  /home/drey"; suggestions := [];
     suggestions_visible := false;
     input := load_history NoFile; trace := [] |}.

Definition with_key (app : App) : App :=
  {| cwd := cwd app; current_suggestions := current_suggestions app;
     api_key := "sk-test"; output := output app;
     cwd_label := cwd_label app; suggestions := suggestions app;
     suggestions_visible := suggestions_visible app; input := input app;
     trace := trace app |}.

Definition submit : str -> App -> W -> App * W :=
  on_input_submitted W lower json_loads exn_message http_stream expanduser
    os_chdir os_getcwd popen.

Definition run : str -> App -> W -> App * W :=
  run_command W exn_message expanduser os_chdir os_getcwd popen.

End Demo.

(** ** More small worlds: failures of the network and of the host *)

Module Faults.

Import AiHelper Main.

(** The service answers with an error status. *)
Definition http_overloaded (req : request) (w : Demo.W) : http_result * Demo.W :=
  (HttpResponse 529 (inr "Overloaded")
                [("data: " ++ Demo.delta_payload "Hi ")%str] None, w).

(** The service answers with an error status and the body cannot be read. *)
Definition http_unreadable (req : request) (w : Demo.W)
  : http_result * Demo.W :=
  (HttpResponse 500 (inl TimeoutException) [] None, w).

(** The service cannot be reached. *)
Definition http_down (req : request) (w : Demo.W) : http_result * Demo.W :=
  (HttpRaises ConnectError, w).

(** The stream stalls after one delta. *)
Definition http_stalls (req : request) (w : Demo.W) : http_result * Demo.W :=
  (HttpResponse 200 (inr "") [("data: " ++ Demo.delta_payload "Hi ")%str]
                (Some TimeoutException), w).

(** A payload that is a number, between two deltas. *)
Definition http_number (req : request) (w : Demo.W) : http_result * Demo.W :=
  (HttpResponse 200 (inr "")
     [ ("data: " ++ Demo.delta_payload "Hi ")%str; "data: 5";
       ("data: " ++ Demo.delta_payload "Hi ")%str ] None, w).

(** [{"type": "content_block_delta", "delta": {"text": 7}}] *)
Definition number_delta_payload : str :=
  ("{" ++ Demo.dq ++ "type" ++ Demo.dq ++ ": " ++ Demo.dq
   ++ "content_block_delta" ++ Demo.dq ++ ", " ++ Demo.dq ++ "delta" ++ Demo.dq
   ++ ": {" ++ Demo.dq ++ "text" ++ Demo.dq ++ ": 7}}")%str.

Definition json_loads (payload : str) : loaded :=
  if Py.eqb payload number_delta_payload then
    Loaded (JDict [("type", JStr "content_block_delta");
                   ("delta", JDict [("text", JInt 7)])])
  else Demo.json_loads payload.

(** A delta whose text is a number, after a delta whose text is a text. *)
Definition http_number_delta (req : request) (w : Demo.W)
  : http_result * Demo.W :=
  (HttpResponse 200 (inr "")
     [ ("data: " ++ Demo.delta_payload "Hi ")%str;
       ("data: " ++ number_delta_payload)%str;
       ("data: " ++ Demo.delta_payload "Hi ")%str ] None, w).

(** The shell cannot be started. *)
Definition popen_denied (command cwd : str) (w : Demo.W)
  : process * Demo.W :=
  (SpawnRaises (OtherException "[Errno 13] Permission denied: '/bin/sh'"), w).

Definition app_recalling : App :=
  set_input {| value := "pwd"; history := ["ls"; "pwd"; "git status"];
               history_index := 1%Z |} Demo.app0.

(** A no-break space, an em space and the Kelvin sign *)
Definition NBSP : str := Str 160 EmptyStr.
Definition EM_SPACE : str := Str 8195 EmptyStr.
Definition KELVIN : str := Str 8490 EmptyStr.

(** A case mapping that, like [str.lower], takes the Kelvin sign to [k]. *)
Fixpoint lower_kelvin (s : str) : str :=
  match s with
  | EmptyStr => EmptyStr
  | Str c r =>
      Str (if N.eqb c 8490 then 107%N else Py.ascii_lower_char c)
          (lower_kelvin r)
  end.

(** The small world with that case mapping. *)
Definition submit_kelvin : str -> App -> Demo.W -> App * Demo.W :=
  on_input_submitted Demo.W lower_kelvin Demo.json_loads Demo.exn_message
    Demo.http_stream Demo.expanduser Demo.os_chdir Demo.os_getcwd Demo.popen.

End Faults.

(** ** Vocabulary for the further properties *)

Module Props.

Import AiHelper Main.


(** The text of a run of output events, end to end. *)
Fixpoint text_of (events : list Text) : str :=
  match events with
  | [] => EmptyStr
  | t :: rest => (content t ++ text_of rest)%str
  end.

(** The text [ask_ai] writes for the lines of one fragment: a line break and
    two spaces before every line but the first. *)
Fixpoint laid_out (later : bool) (lines : list str) : str :=
  match lines with
  | [] => EmptyStr
  | line :: rest =>
      ((if later then Py.nl ++ "  " else "") ++ line ++ laid_out true rest)%str
  end.

(** What [show_ai_help] writes. *)
Definition help_events (configured : bool) : list Text :=
  [ mkText (Py.nl ++ "  ðŸ¤– AI Assistant" ++ Py.nl) "bold magenta";
    mkText ("  â”€â”€â”€â”€â”€â”€â”€â”€â”€â”€â”€â”€â”€â”€â”€â”€â”€â”€â”€â”€â”€â”€â”€â”€â”€â”€â”€â”€â”€â”€â”€â”€â”€â”€â”€â”€â”€" ++ Py.nl) "dim";
    (if configured
     then mkText ("  âœ“ AI is ready!" ++ Py.nl ++ Py.nl) "bold green"
     else mkText ("  âš  API key not set. Set ANTHROPIC_API_KEY to enable."
                  ++ Py.nl ++ Py.nl) "yellow");
    mkText ("  How to use:" ++ Py.nl) "bold cyan";
    mkText "    ? " "bold yellow";
    mkText "your question" "white";
    mkText ("     (e.g., ? how to find large files)" ++ Py.nl ++ Py.nl) "dim";
    mkText ("  Quick Suggestions (no API needed):" ++ Py.nl) "bold cyan" ]
  ++ flat_map (fun kc =>
                 [ mkText ("    â€¢ " ++ fst kc ++ ": ") "white";
                   mkText (preview (snd kc) ++ Py.nl) "dim" ])
              (firstn 8 QUICK_SUGGESTIONS)
  ++ [ mkText (Py.nl ++ "  Try: ") "bold yellow";
       mkText ("? how do I check disk space" ++ Py.nl) "white" ].

(** Strings end to end. *)
Fixpoint joined (parts : list str) : str :=
  match parts with
  | [] => EmptyStr
  | p :: rest => (p ++ joined rest)%str
  end.

(** The cursor of the history is [-1] or the index, from the end, of an
    entry. *)
Definition cursor_in_range (inp : CommandInput) : Prop :=
  (-1 <= history_index inp < Z.of_nat (length (history inp)))%Z.

(** A line that is neither a question nor a built-in, [lower] being
    [str.lower]. *)
Definition external (lower : str -> str) (command : str) : Prop :=
  command <> "" /\
  Py.startswith command "?" = false /\
  Py.startswith (lower command) "/ask " = false /\
  Py.startswith command "cd " = false /\
  command <> "clear" /\ command <> "exit" /\ command <> "quit".

Definition is_dict (v : json) : bool :=
  match v with JDict _ => true | _ => false end.

Definition is_string (v : json) : bool :=
  match v with JStr _ => true | _ => false end.

End Props.

(** ** Facts about the str primitives *)

Module PyFacts.

Import Py.

Lemma startswith_app (p r : str) : startswith (p ++ r) p = true.
Proof.
  induction p as [|a p IH]; simpl; [now destruct r|].
  now rewrite N.eqb_refl.
Qed.

Lemma startswith_split (s p : str) :
  startswith s p = true -> s = (p ++ drop (Py.len p) s)%str.
Proof.
  revert s; induction p as [|a p IH]; intros s H.
  - reflexivity.
  - destruct s as [|b s]; [discriminate|]. simpl in H.
    apply andb_true_iff in H as [Hab Hs].
    apply N.eqb_eq in Hab; subst b.
    simpl. f_equal. now apply IH.
Qed.

Lemma drop_app (p r : str) : drop (Py.len p) (p ++ r) = r.
Proof. induction p as [|a p IH]; simpl; [now destruct r|exact IH]. Qed.

Lemma eqb_eq (a b : str) : eqb a b = true <-> a = b.
Proof.
  revert b; induction a as [|x a IH]; intros [|y b]; simpl;
    try (split; (discriminate || reflexivity)).
  rewrite andb_true_iff, N.eqb_eq, IH. split.
  - now intros [-> ->].
  - intros H; injection H as -> ->. now split.
Qed.

Lemma eqb_refl (a : str) : eqb a a = true.
Proof. now apply eqb_eq. Qed.

Lemma eqb_neq (a b : str) : eqb a b = false <-> a <> b.
Proof.
  rewrite <- eqb_eq. destruct (eqb a b); split; congruence.
Qed.

Lemma eqb_spec (a b : str) : reflect (a = b) (eqb a b).
Proof.
  destruct (eqb a b) eqn:E; constructor.
  - now apply eqb_eq.
  - now apply eqb_neq.
Qed.

Lemma app_length (a b : str) :
  Py.len (a ++ b) = Py.len a + Py.len b.
Proof. induction a as [|c a IH]; simpl; [reflexivity|now rewrite IH]. Qed.

Lemma app_assoc (a b c : str) : ((a ++ b) ++ c = a ++ (b ++ c))%str.
Proof. induction a as [|x a IH]; simpl; [reflexivity|now rewrite IH]. Qed.

Lemma truthy_true (s : str) : truthy s = true <-> s <> "".
Proof. destruct s; simpl; split; intros; congruence. Qed.

Lemma truthy_false (s : str) : truthy s = false <-> s = "".
Proof. destruct s; simpl; split; intros; congruence. Qed.

(** *** White space at the two ends *)



Lemma lstrip_head (s : str) c r : lstrip s = Str c r -> isspace c = false.
Proof.
  induction s as [|d s IH]; simpl; [discriminate|].
  destruct (isspace d) eqn:E; [exact IH|].
  intros H; injection H as <- _; exact E.
Qed.



Lemma rstrip_length (s : str) : Py.len (rstrip s) <= Py.len s.
Proof.
  induction s as [|c s IH]; simpl; [lia|].
  destruct (rstrip s); [destruct (isspace c)|]; simpl in *; lia.
Qed.

Lemma rstrip_idem (s : str) : rstrip (rstrip s) = rstrip s.
Proof.
  induction s as [|c s IH]; simpl; [reflexivity|].
  destruct (rstrip s) as [|d r] eqn:E.
  - destruct (isspace c) eqn:Ec; simpl; [reflexivity|now rewrite Ec].
  - change (rstrip (Str c (Str d r))) with
      (match rstrip (Str d r) with
       | EmptyStr => if isspace c then EmptyStr else Str c EmptyStr
       | r' => Str c r' end).
    now rewrite IH.
Qed.


(** *** Substrings *)

Lemma contains_here (s b : str) : contains s (s ++ b) = true.
Proof.
  destruct s as [|c s]; [now destruct b|].
  simpl. rewrite N.eqb_refl, startswith_app. reflexivity.
Qed.

Lemma contains_app (s a b : str) : contains s (a ++ s ++ b) = true.
Proof.
  induction a as [|c a IH].
  - simpl. apply contains_here.
  - change (contains s (Str c a ++ s ++ b)%str)
      with (startswith (Str c a ++ s ++ b)%str s
            || contains s (a ++ s ++ b)%str).
    rewrite IH. apply orb_true_r.
Qed.

End PyFacts.

(** ** The quick-answer table *)

Module QuickFacts.

Import AiHelper.

Lemma key_test_matches (lower : str -> str) (key query : str) :
  Spec.key_test key (lower query) = true <-> Spec.key_matches lower key query.
Proof.
  unfold Spec.key_test, Spec.key_matches.
  rewrite orb_true_iff, forallb_forall, Forall_forall. tauto.
Qed.

Lemma key_test_no_match (lower : str -> str) (key query : str) :
  Spec.key_test key (lower query) = false
  <-> ~ Spec.key_matches lower key query.
Proof.
  rewrite <- key_test_matches.
  destruct (Spec.key_test key (lower query)).
  - split; [discriminate|]. intros H. now contradiction H.
  - split; [discriminate|reflexivity].
Qed.

(** What the scan returns, for any table. *)
Lemma quick_scan_first (items : list (str * str)) (ql : str) :
  match quick_scan items ql with
  | Some command =>
      exists pre key post,
        items = pre ++ (key, command) :: post /\
        Spec.key_test key ql = true /\
        (forall k c, In (k, c) pre -> Spec.key_test k ql = false)
  | None => forall k c, In (k, c) items -> Spec.key_test k ql = false
  end.
Proof.
  induction items as [|[key command] rest IH]; simpl.
  - intros k c [].
  - fold (Spec.key_test key ql). destruct (Spec.key_test key ql) eqn:E.
    + exists [], key, rest. repeat split; [assumption|intros k c []].
    + destruct (quick_scan rest ql) as [c'|].
      * destruct IH as (pre & k' & post & -> & Hk & Hpre).
        exists ((key, command) :: pre), k', post. repeat split; [assumption|].
        intros k c [H|H]; [now inversion H; subst|eauto].
      * intros k c [H|H]; [now inversion H; subst|eauto].
Qed.

Lemma quick_scan_hit (pre post : list (str * str)) key command ql :
  Spec.key_test key ql = true ->
  (forall k c, In (k, c) pre -> Spec.key_test k ql = false) ->
  quick_scan (pre ++ (key, command) :: post) ql = Some command.
Proof.
  intros Hk. induction pre as [|[k c] pre IH]; intros Hpre; simpl.
  - fold (Spec.key_test key ql). now rewrite Hk.
  - fold (Spec.key_test k ql). rewrite (Hpre k c) by now left.
    apply IH. intros k' c' H. apply (Hpre k' c'). now right.
Qed.

End QuickFacts.

(** C10. For every question, [get_quick_suggestion] returns the canned
    command of the first key of the table, in its fixed order, that matches
    the question (the key's full text is contained in the lowercased
    question, or every white-space-separated word of the key is), and
    returns no suggestion exactly when no key matches.  The answer is a
    function of the question alone, and is one command at most.  Here
    [lower] is [str.lower], whatever it does to the question. *)
Theorem C10_quick_suggestion_first_match (lower : str -> str) (query : str) :
  (forall pre key command post,
      AiHelper.QUICK_SUGGESTIONS = pre ++ (key, command) :: post ->
      Spec.key_matches lower key query ->
      (forall k c, In (k, c) pre -> ~ Spec.key_matches lower k query) ->
      AiHelper.get_quick_suggestion lower query = Some command)
  /\ (forall command,
      AiHelper.get_quick_suggestion lower query = Some command ->
      exists pre key post,
        AiHelper.QUICK_SUGGESTIONS = pre ++ (key, command) :: post /\
        Spec.key_matches lower key query /\
        (forall k c, In (k, c) pre -> ~ Spec.key_matches lower k query))
  /\ (AiHelper.get_quick_suggestion lower query = None <->
      forall k c, In (k, c) AiHelper.QUICK_SUGGESTIONS ->
                  ~ Spec.key_matches lower k query).
Proof.
  unfold AiHelper.get_quick_suggestion.
  pose proof (QuickFacts.quick_scan_first AiHelper.QUICK_SUGGESTIONS
                (lower query)) as Hscan.
  split; [|split].
  - intros pre key command post -> Hkey Hpre.
    apply QuickFacts.quick_scan_hit.
    + now apply QuickFacts.key_test_matches.
    + intros k c H. apply QuickFacts.key_test_no_match. eauto.
  - intros command Hc. rewrite Hc in Hscan.
    destruct Hscan as (pre & key & post & Heq & Hk & Hpre).
    exists pre, key, post. repeat split.
    + exact Heq.
    + now apply QuickFacts.key_test_matches.
    + intros k c H. apply QuickFacts.key_test_no_match. eauto.
  - split.
    + intros Hn. rewrite Hn in Hscan. intros k c H.
      apply QuickFacts.key_test_no_match. eauto.
    + intros Hall.
      destruct (AiHelper.quick_scan AiHelper.QUICK_SUGGESTIONS (lower query))
        as [command|] eqn:E; [|reflexivity].
      destruct Hscan as (pre & key & post & Heq & Hk & _).
      exfalso. apply (Hall key command).
      * rewrite Heq. apply in_elt.
      * now apply QuickFacts.key_test_matches.
Qed.

Lemma C10_quick_suggestion_witness :
  AiHelper.get_quick_suggestion Demo.lower "Show DISK  usage per folder"
  = Some "du -sh */ | sort -rh | head -20"
  /\ AiHelper.get_quick_suggestion Faults.lower_kelvin
       ("dis" ++ Faults.KELVIN ++ " usage git status")%str
     = Some "du -sh */ | sort -rh | head -20".
Proof.
  split.
  - apply (proj1 (C10_quick_suggestion_first_match Demo.lower
                    "Show DISK  usage per folder")
             [("find large files",
               "find . -type f -size +100M -exec ls -lh {} \;")]
             "disk usage" _ (skipn 2 AiHelper.QUICK_SUGGESTIONS)).
    + reflexivity.
    + right. repeat constructor.
    + intros k c [H|[]]. inversion H; subst.
      intros [H1|H1]; [discriminate H1|].
      inversion H1 as [|? ? Hfind _]. discriminate Hfind.
  - apply (proj1 (C10_quick_suggestion_first_match Faults.lower_kelvin
                    ("dis" ++ Faults.KELVIN ++ " usage git status")%str)
             [("find large files",
               "find . -type f -size +100M -exec ls -lh {} \;")]
             "disk usage" _ (skipn 2 AiHelper.QUICK_SUGGESTIONS)).
    + reflexivity.
    + left. reflexivity.
    + intros k c [H|[]]. inversion H; subst.
      intros [H1|H1]; [discriminate H1|].
      inversion H1 as [|? ? Hfind _]. discriminate Hfind.
Defined.

(** ** The assistant stream client *)

Module AskFacts.

Import AiHelper.

Section Stream.

Variable W : Type.
Variable json_loads : str -> loaded.
Variable exn_message : exn -> str.
Variable http_stream : request -> W -> http_result * W.

Lemma read_lines_skip line rest cut :
  Py.startswith line "data: " = false ->
  read_lines json_loads (line :: rest) cut = read_lines json_loads rest cut.
Proof. intros H. cbn [read_lines]. now rewrite H. Qed.

Lemma read_lines_data payload rest cut :
  read_lines json_loads (("data: " ++ payload)%str :: rest) cut =
  if Py.eqb payload "[DONE]" then ([], None)
  else match json_loads payload with
       | JSONDecodeError => read_lines json_loads rest cut
       | LoadRaises e => ([], Some e)
       | Loaded event =>
           match on_event event with
           | inl e => ([], Some e)
           | inr ys =>
               let '(more, r) := read_lines json_loads rest cut in
               (ys ++ more, r)
           end
       end.
Proof. reflexivity. Qed.

Lemma not_done payload : payload <> "[DONE]" -> Py.eqb payload "[DONE]" = false.
Proof. intros H. now apply PyFacts.eqb_neq. Qed.



Lemma read_lines_frames lines frames cut :
  Forall2 (Spec.reads_as json_loads) lines frames ->
  read_lines json_loads lines cut
  = (Spec.delta_texts frames,
     if existsb Spec.is_done frames then None else cut).
Proof.
  induction 1 as [|line fr lines frames Hfr _ IH]; [reflexivity|].
  destruct Hfr.
  - rewrite read_lines_skip by assumption. exact IH.
  - reflexivity.
  - rewrite read_lines_data, not_done by assumption.
    now rewrite H0.
  - rewrite read_lines_data, not_done by assumption.
    rewrite H0. simpl on_event. rewrite H1. simpl. rewrite H2, H3, IH.
    reflexivity.
  - rewrite read_lines_data, not_done by assumption.
    rewrite H0. simpl on_event. rewrite H1. simpl.
    destruct H2 as [-> | (dfields & -> & ->)]; now rewrite IH.
  - rewrite read_lines_data, not_done by assumption.
    rewrite H0. simpl on_event.
    destruct (lookup "type" fields) as [ty|] eqn:E.
    + rewrite (H1 ty eq_refl). now rewrite IH.
    + now rewrite IH.
Qed.

End Stream.

End AskFacts.

(** C3, as stated, fails: without a credential the generator yields four
    fragments, not one. *)
Lemma C3_not_one_fragment :
  ~ exists fragment,
      fst (fst (AiHelper.ask Demo.W Demo.json_loads Demo.exn_message
                  Demo.http_stream "" "how do I list files" Demo.w0))
      = [fragment].
Proof. intros [fragment H]. discriminate H. Qed.

(** C3 (amended). For every question, if no credential is configured, [ask]
    yields exactly four explanatory fragments, which together are the text
    that tells how to configure the credential, then terminates; no request
    is sent and the world is left as it was. *)
Theorem C3_no_credential_four_fragments
  (W : Type) (json_loads : str -> AiHelper.loaded)
  (exn_message : AiHelper.exn -> str)
  (http_stream : AiHelper.request -> W -> AiHelper.http_result * W)
  (question : str) (w : W) :
  AiHelper.ask W json_loads exn_message http_stream "" question w
  = ([ AiHelper.JStr
         ("⚠️  AI not configured. Set ANTHROPIC_API_KEY environment variable."
          ++ Py.nl)%str;
       AiHelper.JStr (Py.nl ++ "To set it up:" ++ Py.nl)%str;
       AiHelper.JStr ("  export ANTHROPIC_API_KEY='your-api-key'" ++ Py.nl)%str;
       AiHelper.JStr
         (Py.nl ++ "Get your API key from: https://console.anthropic.com/"
          ++ Py.nl)%str ],
     [], w).
Proof. reflexivity. Qed.




(** ** The dispatcher *)

Module DispatchFacts.

Import AiHelper Main.


Section Handlers.

Variable W : Type.
Variable lower : str -> str.
Variable json_loads : str -> loaded.
Variable exn_message : exn -> str.
Variable http_stream : request -> W -> http_result * W.
Variable expanduser : str -> str.
Variable os_chdir : str -> W -> exn + W.
Variable os_getcwd : W -> str.
Variable popen : str -> str -> W -> process * W.

Local Abbreviation ask_ai := (ask_ai W lower json_loads exn_message http_stream).
Local Abbreviation run_command :=
  (run_command W exn_message expanduser os_chdir os_getcwd popen).
Local Abbreviation on_input_submitted :=
  (on_input_submitted W lower json_loads exn_message http_stream expanduser
     os_chdir os_getcwd popen).

(** *** What the handlers leave alone *)

Lemma write_lines_frame later lines app :
  trace (write_lines later lines app) = trace app /\
  input (write_lines later lines app) = input app /\
  cwd (write_lines later lines app) = cwd app.
Proof.
  revert later app; induction lines as [|line lines IH]; intros later app.
  - now repeat split.
  - cbn [write_lines]. destruct (IH true
      (if Py.truthy line
       then write (mkText line "white")
              (if later then write (mkText (Py.nl ++ "  ") "white") app else app)
       else if later then write (mkText (Py.nl ++ "  ") "white") app else app))
      as (-> & -> & ->).
    destruct (Py.truthy line), later; now repeat split.
Qed.

Lemma drain_frame chunks app :
  trace (drain exn_message chunks app) = trace app /\
  input (drain exn_message chunks app) = input app /\
  cwd (drain exn_message chunks app) = cwd app.
Proof.
  revert app; induction chunks as [|chunk chunks IH]; intros app.
  - now repeat split.
  - destruct chunk; try now repeat split.
    cbn [drain]. destruct (IH (write_lines false (Py.split_on Py.LF s) app))
      as (-> & -> & ->).
    apply write_lines_frame.
Qed.

Lemma ask_ai_frame query app w :
  trace (fst (ask_ai query app w))
  = trace app
    ++ map HttpPost
         (snd (fst (ask W json_loads exn_message http_stream
                      (api_key app) query w))) /\
  input (fst (ask_ai query app w)) = input app /\
  cwd (fst (ask_ai query app w)) = cwd app.
Proof.
  unfold Main.ask_ai. cbv zeta.
  match goal with
  | |- context [ask W json_loads exn_message http_stream (api_key ?a) query w] =>
      set (shown := a)
  end.
  assert (Hshown : api_key shown = api_key app /\ trace shown = trace app /\
                   input shown = input app /\ cwd shown = cwd app).
  { subst shown. destruct (get_quick_suggestion lower query) as [quick|];
      [destruct (Py.truthy quick)|]; now repeat split. }
  destruct Hshown as (Hk & Ht & Hi & Hc). rewrite Hk.
  destruct (ask W json_loads exn_message http_stream (api_key app) query w)
    as [[chunks reqs] w'].
  cbn [fst snd].
  match goal with
  | |- context [drain exn_message chunks ?a] =>
      destruct (drain_frame chunks a) as (Ht' & Hi' & Hc')
  end.
  cbn [trace input cwd write]. rewrite Ht', Hi', Hc'.
  cbn [trace input cwd write record_effects]. rewrite Ht, Hi, Hc.
  now repeat split.
Qed.

Lemma read_output_frame reads app :
  trace (read_output reads app) = trace app /\
  input (read_output reads app) = input app /\
  cwd (read_output reads app) = cwd app.
Proof.
  revert app; induction reads as [|line reads IH]; intros app.
  - now repeat split.
  - cbn [read_output]. destruct (Py.eqb line ""); [now repeat split|].
    destruct (Py.truthy line).
    + destruct (IH (write (mkText ("  " ++ Py.rstrip line ++ Py.nl) "white") app))
        as (-> & -> & ->). now repeat split.
    + apply IH.
Qed.

Lemma run_command_input command app w :
  input (fst (run_command command app w)) = input app.
Proof.
  unfold Main.run_command.
  destruct (Py.startswith command "cd ").
  - unfold change_directory.
    match goal with |- context [os_chdir ?p w] => destruct (os_chdir p w) end;
      reflexivity.
  - destruct (Py.eqb command "clear"); [reflexivity|].
    destruct (Py.eqb command "exit" || Py.eqb command "quit");
      [reflexivity|].
    unfold run_external.
    match goal with |- context [popen ?c ?d w] =>
      destruct (popen c d w) as [[e|reads ending] w'] end; [reflexivity|].
    destruct ending as [e|returncode].
    + cbn [fst input write].
      match goal with |- context [read_output reads ?a] =>
        destruct (read_output_frame reads a) as (_ & -> & _) end.
      reflexivity.
    + destruct (negb (returncode =? 0)%Z); cbn [fst input write];
      match goal with |- context [read_output reads ?a] =>
        destruct (read_output_frame reads a) as (_ & -> & _) end;
      reflexivity.
Qed.

(** *** The three branches of [on_input_submitted] *)

Lemma submit_question_mark submitted app w rest :
  Py.strip submitted = ("?" ++ rest)%str ->
  on_input_submitted submitted app w =
  if Py.truthy (Py.strip rest)
  then (after_submit (Py.strip submitted)
          (fst (ask_ai (Py.strip rest) app w)),
        snd (ask_ai (Py.strip rest) app w))
  else (after_submit (Py.strip submitted) app, w).
Proof.
  intros Hc. unfold Main.on_input_submitted. rewrite Hc.
  cbn [Py.truthy append Py.startswith N.eqb Bool.eqb andb Py.drop].
  destruct (Py.truthy (Py.strip rest)); [|reflexivity].
  now destruct (ask_ai (Py.strip rest) app w).
Qed.

Lemma submit_slash_ask submitted app w :
  Py.strip submitted <> "" ->
  Py.startswith (Py.strip submitted) "?" = false ->
  Py.startswith (lower (Py.strip submitted)) "/ask " = true ->
  on_input_submitted submitted app w =
  if Py.truthy (Py.strip (Py.drop 5 (Py.strip submitted)))
  then (after_submit (Py.strip submitted)
          (fst (ask_ai (Py.strip (Py.drop 5 (Py.strip submitted))) app w)),
        snd (ask_ai (Py.strip (Py.drop 5 (Py.strip submitted))) app w))
  else (after_submit (Py.strip submitted) app, w).
Proof.
  intros Hne Hq Ha. apply PyFacts.truthy_true in Hne.
  unfold Main.on_input_submitted. rewrite Hne, Hq, Ha.
  destruct (Py.truthy (Py.strip (Py.drop 5 (Py.strip submitted))));
    [|reflexivity].
  now destruct (ask_ai (Py.strip (Py.drop 5 (Py.strip submitted))) app w).
Qed.

Lemma submit_command submitted app w :
  Py.strip submitted <> "" ->
  Py.startswith (Py.strip submitted) "?" = false ->
  Py.startswith (lower (Py.strip submitted)) "/ask " = false ->
  on_input_submitted submitted app w =
  (after_submit (Py.strip submitted)
     (fst (run_command (Py.strip submitted) app w)),
   snd (run_command (Py.strip submitted) app w)).
Proof.
  intros Hne Hq Ha. apply PyFacts.truthy_true in Hne.
  unfold Main.on_input_submitted. rewrite Hne, Hq, Ha.
  now destruct (run_command (Py.strip submitted) app w).
Qed.

(** A line that starts with a slash is not a question mark line, and one
    that starts with [cd ] has no slash in front. *)
Lemma slash_not_question_mark (line : str) :
  Py.startswith line "/" = true -> Py.startswith line "?" = false.
Proof.
  destruct line as [|c r]; [discriminate|]. cbn [Py.startswith].
  rewrite !andb_true_r. intros H. apply N.eqb_eq in H. now subst c.
Qed.

Lemma cd_not_slash_ask (line : str) :
  Spec.lower_keeps_slash lower ->
  Py.startswith line "cd " = true ->
  Py.startswith (lower line) "/ask " = false.
Proof.
  intros Hlower Hcd.
  destruct (Py.startswith (lower line) "/ask ") eqn:Ha; [|reflexivity].
  apply Hlower in Ha. destruct line as [|c r]; [discriminate|].
  cbn [Py.startswith] in Ha, Hcd. rewrite andb_true_r in Ha.
  apply N.eqb_eq in Ha. subst c. discriminate Hcd.
Qed.

(** For [str.lower] the first premise of [slash_ask] comes with the
    second. *)
Lemma slash_ask_is_question (line : str) :
  Spec.lower_keeps_slash lower ->
  Py.startswith (lower line) "/ask " = true ->
  Spec.ai_question lower line (Py.strip (Py.drop 5 line)).
Proof.
  intros Hlower Ha. apply Spec.slash_ask; [|exact Ha].
  apply slash_not_question_mark. now apply Hlower.
Qed.

(** A line that is one of the three words is no question either. *)
Lemma word_not_slash_ask (line : str) :
  Spec.lower_keeps_slash lower ->
  Py.startswith line "/" = false ->
  Py.startswith (lower line) "/ask " = false.
Proof.
  intros Hlower Hs.
  destruct (Py.startswith (lower line) "/ask ") eqn:Ha; [|reflexivity].
  apply Hlower in Ha. congruence.
Qed.

End Handlers.

End DispatchFacts.

Section DispatchClaims.

Import AiHelper Main.

Variable W : Type.
Variable lower : str -> str.
Variable json_loads : str -> loaded.
Variable exn_message : exn -> str.
Variable http_stream : request -> W -> http_result * W.
Variable expanduser : str -> str.
Variable os_chdir : str -> W -> exn + W.
Variable os_getcwd : W -> str.
Variable popen : str -> str -> W -> process * W.

Local Abbreviation ask_ai := (ask_ai W lower json_loads exn_message http_stream).
Local Abbreviation change_directory :=
  (change_directory W exn_message expanduser os_chdir os_getcwd).
Local Abbreviation run_external := (run_external W exn_message popen).
Local Abbreviation run_command :=
  (run_command W exn_message expanduser os_chdir os_getcwd popen).
Local Abbreviation on_input_submitted :=
  (on_input_submitted W lower json_loads exn_message http_stream expanduser
     os_chdir os_getcwd popen).

Lemma ask_requests api_key question w :
  api_key <> "" ->
  snd (fst (ask W json_loads exn_message http_stream api_key question w))
  = [make_request api_key question].
Proof.
  intros Hk. apply PyFacts.truthy_true in Hk. unfold ask. rewrite Hk.
  cbn [negb].
  destruct (http_stream (make_request api_key question) w) as [[e|sc b ls cut] w'];
    [reflexivity|].
  destruct (negb (sc =? 200)%Z); [now destruct b|].
  destruct (read_lines json_loads ls cut) as [ys [e|]]; reflexivity.
Qed.

(** C1. For every submitted line whose trimmed text is not empty, starts
    with [?] or, case-insensitively, with [/ask ], and has a non-empty
    remainder [q] once the prefix and the surrounding white space are
    stripped: the submission is handled as an AiQuery, that is by
    [ask_ai q], and the question given to the assistant is exactly [q]
    (it is the user content of the one request sent when a credential is
    configured).  Trimming is [str.strip]'s, and [lower] is [str.lower],
    whatever it does to the line. *)
Theorem C1_ai_query_dispatch (submitted : str) (app : App) (w : W)
  (q : str) :
  Py.strip submitted <> "" ->
  Spec.ai_question lower (Py.strip submitted) q ->
  q <> "" ->
  on_input_submitted submitted app w
  = (after_submit (Py.strip submitted) (fst (ask_ai q app w)),
     snd (ask_ai q app w))
  /\ trace (fst (on_input_submitted submitted app w))
     = trace app
       ++ map HttpPost
            (snd (fst (ask W json_loads exn_message http_stream
                         (api_key app) q w)))
  /\ (api_key app <> "" ->
      trace (fst (on_input_submitted submitted app w))
      = trace app ++ [HttpPost (make_request (api_key app) q)]
      /\ user_content (make_request (api_key app) q) = q).
Proof.
  intros Hne Hq Hq_ne.
  assert (Heq : on_input_submitted submitted app w
                = (after_submit (Py.strip submitted) (fst (ask_ai q app w)),
                   snd (ask_ai q app w))).
  { destruct Hq as [rest Hline|Hmark Hask].
    - rewrite DispatchFacts.submit_question_mark with (1 := Hline).
      apply PyFacts.truthy_true in Hq_ne. now rewrite Hq_ne.
    - rewrite DispatchFacts.submit_slash_ask by assumption.
      apply PyFacts.truthy_true in Hq_ne. now rewrite Hq_ne. }
  assert (Htrace : trace (fst (on_input_submitted submitted app w))
                   = trace app
                     ++ map HttpPost
                          (snd (fst (ask W json_loads exn_message http_stream
                                       (api_key app) q w)))).
  { rewrite Heq. cbn [fst after_submit set_suggestions set_input trace].
    apply DispatchFacts.ask_ai_frame. }
  repeat split; try assumption.
  rewrite Htrace, ask_requests by assumption. reflexivity.
Qed.


Lemma read_output_written reads app :
  output (read_output reads app)
  = output app ++ map Spec.fragment_of (Spec.until_eof reads).
Proof.
  revert app; induction reads as [|line reads IH]; intros app.
  - cbn. now rewrite app_nil_r.
  - cbn [read_output Spec.until_eof].
    destruct (PyFacts.eqb_spec line "") as [->|Hline].
    + cbn. now rewrite app_nil_r.
    + apply PyFacts.truthy_true in Hline. rewrite Hline, IH.
      cbn [output write map]. now rewrite <- app_assoc.
Qed.

Lemma fragments_are_text lines :
  Forall (fun t => Spec.is_text_fragment t = true) (map Spec.fragment_of lines).
Proof. induction lines; constructor; [reflexivity|assumption]. Qed.

Lemma fragments_no_status lines :
  filter Spec.is_status (map Spec.fragment_of lines) = [].
Proof. induction lines; [reflexivity|exact IHlines]. Qed.

(** C4. For every [cd <path>] submission: when the directory change fails,
    exactly one error event is written, carrying the failure's description;
    the working directory (the application's and the process's) is as
    before; no session is created (the only call made is the [chdir]); the
    handler returns normally and the input is re-armed.  When the change
    succeeds the working directory is updated and a confirmation event is
    written.  Trimming is [str.strip]'s; of [str.lower] the one fact used
    is that no line without a slash in front has a lower-case form that
    starts with [/ask ]. *)
Theorem C4_change_directory (submitted : str) (app : App) (w : W) :
  let command := Py.strip submitted in
  let arg := Py.strip (Py.drop 3 command) in
  let path :=
    if Py.eqb arg "~" then expanduser "~"
    else if Py.startswith arg "~/" then expanduser arg
    else arg in
  let header :=
    [ mkText (Py.nl ++ "  " ++ cwd app ++ Py.nl) "bold cyan";
      mkText ("  $ " ++ command ++ Py.nl) "bold green" ] in
  let result := on_input_submitted submitted app w in
  Spec.lower_keeps_slash lower ->
  Py.startswith command "cd " = true ->
  (forall e, os_chdir path w = inl e ->
     let error := mkText ("  Error: " ++ exn_message e ++ Py.nl) "bold red" in
     output (fst result) = output app ++ header ++ [error] /\
     filter Spec.is_error (header ++ [error]) = [error] /\
     Py.contains (exn_message e) (content error) = true /\
     cwd (fst result) = cwd app /\
     cwd_label (fst result) = cwd_label app /\
     snd result = w /\
     trace (fst result) = trace app ++ [Chdir path] /\
     existsb Spec.is_session [Chdir path] = false /\
     input (fst result)
     = {| value := ""; history := history (input app) ++ [command];
          history_index := (-1)%Z |})
  /\
  (forall w', os_chdir path w = inr w' ->
     output (fst result)
     = output app ++ header
       ++ [mkText ("  Changed to: " ++ os_getcwd w' ++ Py.nl) "dim"] /\
     cwd (fst result) = os_getcwd w' /\
     cwd_label (fst result) = ("  " ++ os_getcwd w')%str /\
     snd result = w' /\
     trace (fst result) = trace app ++ [Chdir path]).
Proof.
  intros command arg path header result Hlower Hcd.
  pose proof (PyFacts.startswith_split _ _ Hcd) as Hsplit.
  assert (Hne : command <> "") by (rewrite Hsplit; discriminate).
  assert (Hq : Py.startswith command "?" = false)
    by (rewrite Hsplit; reflexivity).
  assert (Ha : Py.startswith (lower command) "/ask " = false)
    by (now apply DispatchFacts.cd_not_slash_ask).
  assert (Hres : result
                 = (after_submit command
                      (fst (change_directory command
                              (show_command command app) w)),
                    snd (change_directory command
                           (show_command command app) w))).
  { unfold result.
    rewrite DispatchFacts.submit_command by assumption.
    unfold Main.run_command. fold command. now rewrite Hcd. }
  rewrite Hres. unfold Main.change_directory. fold arg. fold path.
  split.
  - intros e He. rewrite He.
    repeat split; try (cbn; rewrite <- ?app_assoc; reflexivity).
    apply (PyFacts.contains_app (exn_message e) "  Error: " Py.nl).
  - intros w' Hw'. rewrite Hw'.
    repeat split; cbn; rewrite <- ?app_assoc; reflexivity.
Qed.

(** C5. For every run of an external command that reaches process exit:
    after the two lines that show the command, the output gets one text
    fragment per line read, then nothing more when the exit code is zero,
    and exactly one status event, which contains the exit code and comes
    after all the text fragments, when it is not. *)
Theorem C5_exit_status (command : str) (app : App) (w : W)
  (reads : list str) (returncode : Z) (w' : W) :
  let header :=
    [ mkText (Py.nl ++ "  " ++ cwd app ++ Py.nl) "bold cyan";
      mkText ("  $ " ++ command ++ Py.nl) "bold green" ] in
  let fragments := map Spec.fragment_of (Spec.until_eof reads) in
  let status :=
    mkText (Py.nl ++ "  Exit code: " ++ Py.str_of_int returncode ++ Py.nl)
           "yellow" in
  let statuses := if (returncode =? 0)%Z then [] else [status] in
  Py.startswith command "cd " = false ->
  command <> "clear" -> command <> "exit" -> command <> "quit" ->
  popen command (cwd app) w = (Spawned reads (inr returncode), w') ->
  output (fst (run_command command app w))
  = output app ++ header ++ fragments ++ statuses /\
  filter Spec.is_status (header ++ fragments ++ statuses) = statuses /\
  Forall (fun t => Spec.is_text_fragment t = true) fragments /\
  Py.contains (Py.str_of_int returncode) (content status) = true.
Proof.
  intros header fragments status statuses Hcd Hclear Hexit Hquit Hp.
  apply PyFacts.eqb_neq in Hclear, Hexit, Hquit.
  repeat split.
  - unfold Main.run_command. rewrite Hcd, Hclear, Hexit, Hquit. cbn [orb].
    unfold Main.run_external.
    change (cwd (show_command command app)) with (cwd app). rewrite Hp.
    unfold statuses.
    destruct (returncode =? 0)%Z; cbn [negb fst output write];
      rewrite read_output_written; cbn [output record_effects show_command write];
      unfold header, fragments; rewrite <- ?app_assoc; cbn [List.app];
      rewrite ?app_nil_r; reflexivity.
  - rewrite !filter_app. unfold fragments.
    rewrite fragments_no_status. unfold statuses.
    now destruct (returncode =? 0)%Z.
  - apply fragments_are_text.
  - apply (PyFacts.contains_app (Py.str_of_int returncode)
             (Py.nl ++ "  Exit code: ") Py.nl).
Qed.

(** C9 (amended). The initial import holds at most 500 entries, the
    non-blank ones among the last 500 lines of the prior session's file.
    After it, every submission of a line that is not blank appends the
    trimmed line and discards nothing, so the buffer grows by one entry per
    submission; a blank submission leaves it as it is.  Blank and trimmed
    are [str.strip]'s. *)
Theorem C9_import_capped_then_grows :
  (forall f, length (history (load_history f)) <= 500) /\
  (forall submitted app w,
      Py.strip submitted <> "" ->
      history (input (fst (on_input_submitted submitted app w)))
      = history (input app) ++ [Py.strip submitted]) /\
  (forall submitted app w,
      Py.strip submitted = "" ->
      on_input_submitted submitted app w = (app, w)).
Proof.
  split; [|split].
  - intros [| |lines]; cbn [load_history history length]; try lia.
    rewrite length_map.
    etransitivity; [apply filter_length_le|].
    unfold Py.last_n. rewrite length_skipn. lia.
  - intros submitted app w Hne.
    assert (Hin : forall r : App * W,
               input (fst r) = input app ->
               history (input (after_submit (Py.strip submitted) (fst r)))
               = history (input app) ++ [Py.strip submitted]).
    { intros r Hr. cbn. now rewrite Hr. }
    destruct (Py.startswith (Py.strip submitted) "?") eqn:Hq.
    + apply PyFacts.startswith_split in Hq.
      rewrite DispatchFacts.submit_question_mark with (1 := Hq).
      destruct (Py.truthy _); [|reflexivity].
      cbn [fst]. apply (Hin (ask_ai _ app w)).
      apply DispatchFacts.ask_ai_frame.
    + destruct (Py.startswith (lower (Py.strip submitted)) "/ask ") eqn:Ha.
      * rewrite DispatchFacts.submit_slash_ask by assumption.
        destruct (Py.truthy _); [|reflexivity].
        cbn [fst]. apply (Hin (ask_ai _ app w)).
        apply DispatchFacts.ask_ai_frame.
      * rewrite DispatchFacts.submit_command by assumption.
        cbn [fst]. apply (Hin (run_command _ app w)).
        apply DispatchFacts.run_command_input.
  - intros submitted app w He. unfold Main.on_input_submitted. now rewrite He.
Qed.

End DispatchClaims.

(** ** The claims at work in the small world *)

Module DemoFacts.

Lemma ascii_lower_char_slash (c : N) : Py.ascii_lower_char c = 47%N -> c = 47%N.
Proof.
  unfold Py.ascii_lower_char.
  destruct ((65 <=? c)%N && (c <=? 90)%N) eqn:E; [|easy].
  apply andb_true_iff in E as [E _]. apply N.leb_le in E. lia.
Qed.

(** The two facts about [str.lower] hold of the case mappings of the small
    worlds. *)
Lemma demo_lower_keeps_slash : Spec.lower_keeps_slash Demo.lower.
Proof.
  intros [|c r]; [discriminate|].
  unfold Demo.lower. cbn [Py.ascii_lower Py.startswith].
  intros H. apply andb_true_iff in H as [H _]. apply N.eqb_eq in H.
  symmetry in H. apply ascii_lower_char_slash in H. now subst c.
Qed.

Lemma demo_lower_on_ascii : Spec.lower_on_ascii Demo.lower.
Proof. intros s _. reflexivity. Qed.

Lemma kelvin_lower_keeps_slash : Spec.lower_keeps_slash Faults.lower_kelvin.
Proof.
  intros [|c r]; [discriminate|].
  cbn [Faults.lower_kelvin Py.startswith].
  intros H. apply andb_true_iff in H as [H _]. apply N.eqb_eq in H.
  destruct (N.eqb c 8490); [discriminate H|].
  symmetry in H. apply ascii_lower_char_slash in H. now subst c.
Qed.

Lemma kelvin_lower_on_ascii : Spec.lower_on_ascii Faults.lower_kelvin.
Proof.
  intros s. induction s as [|c r IH]; [reflexivity|].
  cbn [Py.is_ascii Faults.lower_kelvin Py.ascii_lower]. intros H.
  apply andb_true_iff in H as [Hc Hr]. apply N.ltb_lt in Hc.
  rewrite (IH Hr).
  destruct (N.eqb_spec c 8490) as [->|_]; [lia|reflexivity].
Qed.

End DemoFacts.

Lemma C1_ai_query_witness :
  Demo.submit "  /Ask  disk usage " (Demo.with_key Demo.app0) Demo.w0
  = (Main.after_submit "/Ask  disk usage"
       (fst (Main.ask_ai Demo.W Demo.lower Demo.json_loads Demo.exn_message
               Demo.http_stream "disk usage" (Demo.with_key Demo.app0)
               Demo.w0)),
     snd (Main.ask_ai Demo.W Demo.lower Demo.json_loads Demo.exn_message
            Demo.http_stream "disk usage" (Demo.with_key Demo.app0) Demo.w0))
  /\ Main.trace
       (fst (Faults.submit_kelvin
               (Faults.NBSP ++ "/AS" ++ Faults.KELVIN ++ " disk usage"
                ++ Faults.NBSP)%str
               (Demo.with_key Demo.app0) Demo.w0))
     = [Main.HttpPost (AiHelper.make_request "sk-test" "disk usage")].
Proof.
  split.
  - apply (C1_ai_query_dispatch Demo.W Demo.lower Demo.json_loads
             Demo.exn_message Demo.http_stream Demo.expanduser Demo.os_chdir
             Demo.os_getcwd Demo.popen "  /Ask  disk usage "
             (Demo.with_key Demo.app0) Demo.w0 "disk usage").
    + vm_compute. discriminate.
    + change "disk usage"
        with (Py.strip (Py.drop 5 (Py.strip "  /Ask  disk usage "))).
      apply Spec.slash_ask; reflexivity.
    + discriminate.
  - apply (C1_ai_query_dispatch Demo.W Faults.lower_kelvin Demo.json_loads
             Demo.exn_message Demo.http_stream Demo.expanduser Demo.os_chdir
             Demo.os_getcwd Demo.popen
             (Faults.NBSP ++ "/AS" ++ Faults.KELVIN ++ " disk usage"
              ++ Faults.NBSP)%str
             (Demo.with_key Demo.app0) Demo.w0 "disk usage").
    + vm_compute. discriminate.
    + change "disk usage"
        with (Py.strip
                (Py.drop 5
                   (Py.strip (Faults.NBSP ++ "/AS" ++ Faults.KELVIN
                              ++ " disk usage" ++ Faults.NBSP)%str))).
      apply Spec.slash_ask; reflexivity.
    + discriminate.
    + discriminate.
Defined.




Lemma C4_change_directory_witness :
  Main.cwd (fst (Demo.submit "cd /does/not/exist" Demo.app0 Demo.w0))
  = "/home/drey"
  /\ Main.cwd (fst (Demo.submit "cd /tmp" Demo.app0 Demo.w0)) = "/tmp".
Proof.
  split.
  - destruct (C4_change_directory Demo.W Demo.lower Demo.json_loads Demo.exn_message
                Demo.http_stream Demo.expanduser Demo.os_chdir Demo.os_getcwd
                Demo.popen "cd /does/not/exist" Demo.app0 Demo.w0
                DemoFacts.demo_lower_keeps_slash eq_refl)
      as [Hfail _].
    exact (proj1 (proj2 (proj2 (proj2 (Hfail _ eq_refl))))).
  - destruct (C4_change_directory Demo.W Demo.lower Demo.json_loads Demo.exn_message
                Demo.http_stream Demo.expanduser Demo.os_chdir Demo.os_getcwd
                Demo.popen "cd /tmp" Demo.app0 Demo.w0
                DemoFacts.demo_lower_keeps_slash eq_refl)
      as [_ Hok].
    exact (proj1 (proj2 (Hok _ eq_refl))).
Defined.

Lemma C5_exit_status_witness :
  Main.output (fst (Demo.run "false" Demo.app0 Demo.w0))
  = [ Main.mkText (Py.nl ++ "  /home/drey" ++ Py.nl) "bold cyan";
      Main.mkText ("  $ false" ++ Py.nl) "bold green";
      Main.mkText (Py.nl ++ "  Exit code: 1" ++ Py.nl) "yellow" ]
  /\ Main.output (fst (Demo.run "echo hi" Demo.app0 Demo.w0))
  = [ Main.mkText (Py.nl ++ "  /home/drey" ++ Py.nl) "bold cyan";
      Main.mkText ("  $ echo hi" ++ Py.nl) "bold green";
      Main.mkText ("  hi" ++ Py.nl) "white" ].
Proof.
  split.
  - apply (C5_exit_status Demo.W Demo.exn_message Demo.expanduser
             Demo.os_chdir Demo.os_getcwd Demo.popen "false" Demo.app0 Demo.w0
             [] 1%Z Demo.w0); (reflexivity || discriminate).
  - apply (C5_exit_status Demo.W Demo.exn_message Demo.expanduser
             Demo.os_chdir Demo.os_getcwd Demo.popen "echo hi" Demo.app0
             Demo.w0 [("hi" ++ Py.nl)%str] 0%Z Demo.w0);
      (reflexivity || discriminate).
Defined.

(** C9, as stated, fails: an import of 500 entries followed by one
    submission leaves 501 entries in the buffer; nothing is discarded. *)
Lemma C9_history_exceeds_cap :
  let imported := Main.load_history (Main.FileLines (repeat "ls" 500)) in
  let app := Main.set_input imported Demo.app0 in
  let after := fst (Demo.submit "pwd" app Demo.w0) in
  length (Main.history imported) = 500 /\
  length (Main.history (Main.input after)) = 501 /\
  ~ length (Main.history (Main.input after)) <= 500 /\
  hd_error (Main.history (Main.input after)) = Some "ls".
Proof.
  cbv zeta.
  assert (H : length (Main.history (Main.input (fst (Demo.submit "pwd"
                (Main.set_input
                   (Main.load_history (Main.FileLines (repeat "ls" 500)))
                   Demo.app0) Demo.w0)))) = 501) by (vm_compute; reflexivity).
  split; [vm_compute; reflexivity|].
  split; [exact H|].
  split; [rewrite H; lia|].
  vm_compute; reflexivity.
Qed.

Lemma C9_import_capped_then_grows_witness :
  Main.history (Main.input (fst (Demo.submit " ls -la " Demo.app0 Demo.w0)))
  = ["ls -la"].
Proof.
  apply (proj1 (proj2 (C9_import_capped_then_grows Demo.W Demo.lower Demo.json_loads
                         Demo.exn_message Demo.http_stream Demo.expanduser
                         Demo.os_chdir Demo.os_getcwd Demo.popen))
           " ls -la " Demo.app0 Demo.w0).
  vm_compute. discriminate.
Defined.

(** ** The history buffer *)

Module HistoryFacts.

Import Main Spec.

Lemma index_recent (h : list str) (k : nat) :
  1 <= k <= length h ->
  Py.index h (- Z.of_nat k) = Some (nth (k - 1) (rev h) "").
Proof.
  intros Hk. unfold Py.index.
  assert (Hneg : (- Z.of_nat k <? 0)%Z = true) by (apply Z.ltb_lt; lia).
  rewrite Hneg.
  assert (Hin : ((0 <=? - Z.of_nat k + Z.of_nat (length h))
                 && (- Z.of_nat k + Z.of_nat (length h) <? Z.of_nat (length h)))%Z
                = true).
  { apply andb_true_iff. split; [apply Z.leb_le|apply Z.ltb_lt]; lia. }
  rewrite Hin.
  replace (Z.to_nat (- Z.of_nat k + Z.of_nat (length h))) with (length h - k)
    by lia.
  rewrite rev_nth by lia.
  replace (length h - S (k - 1)) with (length h - k) by lia.
  apply nth_error_nth'. lia.
Qed.

Lemma up_from_fresh (h : list str) (v : str) :
  h <> [] -> on_key Up (not_recalling v h) = Some (recalled h 1).
Proof.
  intros Hh. unfold on_key, not_recalling. cbn [history history_index].
  assert (Hlen : 1 <= length h) by (destruct h; [congruence|simpl; lia]).
  replace (Nat.eqb (length h) 0) with false
    by (symmetry; apply Nat.eqb_neq; lia).
  replace (-1 <? Z.of_nat (length h) - 1)%Z with true
    by (symmetry; apply Z.ltb_lt; lia).
  cbn [negb andb].
  change (- (-1 + 1 + 1))%Z with (- Z.of_nat 1)%Z.
  now rewrite index_recent by lia.
Qed.

Lemma up_step (h : list str) (k : nat) :
  1 <= k < length h -> on_key Up (recalled h k) = Some (recalled h (k + 1)).
Proof.
  intros Hk. unfold on_key, recalled. cbn [history history_index].
  replace (Nat.eqb (length h) 0) with false
    by (symmetry; apply Nat.eqb_neq; lia).
  replace (Z.of_nat k - 1 <? Z.of_nat (length h) - 1)%Z with true
    by (symmetry; apply Z.ltb_lt; lia).
  cbn [negb andb].
  replace (- (Z.of_nat k - 1 + 1 + 1))%Z with (- Z.of_nat (k + 1))%Z by lia.
  rewrite index_recent by lia.
  do 2 f_equal. lia.
Qed.

Lemma up_stop (h : list str) :
  on_key Up (recalled h (length h)) = Some (recalled h (length h)).
Proof.
  unfold on_key, recalled. cbn [history history_index].
  replace (Z.of_nat (length h) - 1 <? Z.of_nat (length h) - 1)%Z with false
    by (symmetry; apply Z.ltb_ge; lia).
  now rewrite andb_false_r.
Qed.

Lemma down_step (h : list str) (k : nat) :
  1 <= k < length h -> on_key Down (recalled h (k + 1)) = Some (recalled h k).
Proof.
  intros Hk. unfold on_key, recalled. cbn [history history_index].
  replace (Z.of_nat (k + 1) - 1 >? 0)%Z with true
    by (symmetry; apply Z.gtb_lt; lia).
  replace (- (Z.of_nat (k + 1) - 1 - 1 + 1))%Z with (- Z.of_nat k)%Z by lia.
  rewrite index_recent by lia.
  do 2 f_equal. lia.
Qed.

Lemma down_exit (h : list str) :
  on_key Down (recalled h 1) = Some (not_recalling "" h).
Proof. reflexivity. Qed.

Lemma down_idle (h : list str) (v : str) :
  on_key Down (not_recalling v h) = Some (not_recalling v h).
Proof. reflexivity. Qed.

Lemma presses_up (h : list str) (n k : nat) :
  1 <= k <= length h ->
  presses n Up (recalled h k) = Some (recalled h (Nat.min (k + n) (length h))).
Proof.
  revert k; induction n as [|n IH]; intros k Hk.
  - cbn [presses]. do 2 f_equal. lia.
  - cbn [presses]. destruct (Nat.eq_dec k (length h)) as [->|Hlt].
    + rewrite up_stop, IH by lia. do 2 f_equal. lia.
    + rewrite up_step, IH by lia. do 2 f_equal. lia.
Qed.

Lemma presses_up_fresh (h : list str) (v : str) (K : nat) :
  h <> [] -> 1 <= K ->
  presses K Up (not_recalling v h)
  = Some (recalled h (Nat.min K (length h))).
Proof.
  intros Hh HK. destruct K as [|n]; [lia|].
  assert (Hlen : 1 <= length h) by (destruct h; [congruence|simpl; lia]).
  cbn [presses]. rewrite up_from_fresh, presses_up by (assumption || lia).
  do 2 f_equal.
Qed.

Lemma presses_down_idle (h : list str) (v : str) (n : nat) :
  presses n Down (not_recalling v h) = Some (not_recalling v h).
Proof. induction n as [|n IH]; [reflexivity|exact IH]. Qed.

Lemma presses_down (h : list str) (n k : nat) :
  1 <= k <= length h ->
  presses n Down (recalled h k)
  = Some (if (n <? k)%nat then recalled h (k - n) else not_recalling "" h).
Proof.
  revert k; induction n as [|n IH]; intros k Hk.
  - cbn [presses]. replace (0 <? k)%nat with true
      by (symmetry; apply Nat.ltb_lt; lia).
    do 2 f_equal. lia.
  - cbn [presses]. destruct (Nat.eq_dec k 1) as [->|Hk1].
    + rewrite down_exit, presses_down_idle.
      now replace (S n <? 1)%nat with false by (symmetry; apply Nat.ltb_ge; lia).
    + replace k with ((k - 1) + 1) at 1 by lia.
      rewrite down_step, IH by lia.
      destruct (Nat.ltb_spec n (k - 1)), (Nat.ltb_spec (S n) k);
        try lia; [|reflexivity].
      do 2 f_equal. lia.
Qed.

End HistoryFacts.

(** C6. For every non-empty history and every [K >= 1]: [K] presses of Up
    from a fresh cursor recall the [K]-th most recent entry, or the oldest
    entry once [K] exceeds the size of the buffer, where Up changes nothing
    any more.  Down presses that follow retrace the same entries: after
    [j] of them the input is what [m - j] Up presses from the fresh cursor
    give, until the [m]-th leaves the recall with an empty input; further
    Down presses change nothing, and Up then recalls the most recent entry
    again. *)
Theorem C6_history_recall (h : list str) (v0 : str) (K : nat) :
  h <> [] -> 1 <= K ->
  let m := Nat.min K (length h) in
  let fresh := {| Main.value := v0; Main.history := h;
                  Main.history_index := (-1)%Z |} in
  let left := {| Main.value := ""; Main.history := h;
                 Main.history_index := (-1)%Z |} in
  exists top,
    Spec.presses K Main.Up fresh = Some top /\
    nth_error (rev h) (m - 1) = Some (Main.value top) /\
    Main.history top = h /\
    Main.history_index top = (Z.of_nat m - 1)%Z /\
    (length h <= K ->
     hd_error h = Some (Main.value top) /\ Main.on_key Main.Up top = Some top) /\
    (forall j, j < m ->
       Spec.presses j Main.Down top = Spec.presses (m - j) Main.Up fresh) /\
    (forall j, m <= j -> Spec.presses j Main.Down top = Some left) /\
    (exists newest,
       nth_error (rev h) 0 = Some newest /\
       Main.on_key Main.Up left
       = Some {| Main.value := newest; Main.history := h;
                 Main.history_index := 0%Z |}).
Proof.
  intros Hh HK m fresh left.
  assert (Hlen : 1 <= length h) by (destruct h; [congruence|simpl; lia]).
  assert (Hm : 1 <= m <= length h) by (unfold m; lia).
  exists (Spec.recalled h m).
  split; [exact (HistoryFacts.presses_up_fresh h v0 K Hh HK)|].
  split.
  { cbn [Main.value Spec.recalled]. apply nth_error_nth'.
    rewrite length_rev. lia. }
  split; [reflexivity|]. split; [reflexivity|].
  split.
  { intros HKlen. assert (Hmlen : m = length h) by (unfold m; lia).
    rewrite Hmlen. split; [|apply HistoryFacts.up_stop].
    cbn [Main.value Spec.recalled]. rewrite rev_nth by lia.
    replace (length h - S (length h - 1)) with 0 by lia.
    destruct h; [congruence|reflexivity]. }
  split.
  { intros j Hj.
    rewrite HistoryFacts.presses_down by exact Hm.
    replace (j <? m)%nat with true by (symmetry; apply Nat.ltb_lt; lia).
    change fresh with (Spec.not_recalling v0 h).
    rewrite HistoryFacts.presses_up_fresh by (assumption || lia).
    do 2 f_equal. lia. }
  split.
  { intros j Hj.
    rewrite HistoryFacts.presses_down by exact Hm.
    now replace (j <? m)%nat with false by (symmetry; apply Nat.ltb_ge; lia). }
  exists (nth 0 (rev h) "").
  split; [apply nth_error_nth'; rewrite length_rev; lia|].
  exact (HistoryFacts.up_from_fresh h "" Hh).
Qed.

Lemma C6_history_recall_witness :
  Spec.presses 2 Main.Up
    {| Main.value := "gi"; Main.history := ["ls"; "pwd"; "git status"];
       Main.history_index := (-1)%Z |}
  = Some {| Main.value := "pwd"; Main.history := ["ls"; "pwd"; "git status"];
            Main.history_index := 1%Z |}.
Proof.
  destruct (C6_history_recall ["ls"; "pwd"; "git status"] "gi" 2)
    as (top & Hup & Hval & Hh & Hi & _); [discriminate|lia|].
  rewrite Hup. destruct top as [v h i].
  cbn in Hval, Hh, Hi. injection Hval as <-. now subst.
Defined.

(** ** The suggestion index *)

Module SuggestFacts.

Import Main Spec.

Lemma mem_In (x : str) (l : list str) : mem x l = true <-> In x l.
Proof.
  unfold mem. rewrite existsb_exists. split.
  - intros (y & Hy & Heq). apply PyFacts.eqb_eq in Heq. now subst.
  - intros H. exists x. split; [assumption|apply PyFacts.eqb_refl].
Qed.

Lemma subseq_refl_nil {A : Type} (l : list A) : subseq [] l.
Proof. induction l; constructor; assumption. Qed.

Section Matching.

Variable lower : str -> str.

(** What the history loop adds to the matches found so far. *)
Lemma search_history_adds (t : str) (hist matches : list str) :
  exists added,
    search_history lower t hist matches = matches ++ added /\
    subseq added hist /\
    NoDup added /\
    (forall x, In x added ->
       Py.contains t (lower x) = true /\ ~ In x matches).
Proof.
  revert matches; induction hist as [|cmd hist IH]; intros matches.
  - exists []. rewrite app_nil_r.
    split; [reflexivity|]. split; [constructor|]. split; [constructor|].
    intros x [].
  - cbn [search_history].
    destruct (Py.contains t (lower cmd)) eqn:Hc;
      [destruct (mem cmd matches) eqn:Hm|]; cbn [negb andb].
    + destruct (IH matches) as (added & -> & Hs & Hn & Hin).
      exists added.
      split; [reflexivity|]. split; [now constructor|]. now split.
    + destruct (IH (matches ++ [cmd])) as (added & -> & Hs & Hn & Hin).
      exists (cmd :: added). rewrite <- app_assoc.
      split; [reflexivity|]. split; [now constructor|]. split.
      * constructor; [|assumption]. intros Hx.
        apply (proj2 (Hin cmd Hx)). apply in_or_app. right. now left.
      * intros x [<-|Hx]; split.
        -- assumption.
        -- intros Hx. apply mem_In in Hx. congruence.
        -- now apply Hin.
        -- intros Hm'. apply (proj2 (Hin x Hx)). apply in_or_app. now left.
    + destruct (IH matches) as (added & -> & Hs & Hn & Hin).
      exists added.
      split; [reflexivity|]. split; [now constructor|]. now split.
Qed.

(** The items shown are the first eight of the catalog matches followed by
    the history matches, most recent first, each new at its place. *)
Lemma update_suggestions_shape (text : str) (app : App) :
  text <> "" -> Py.startswith text "?" = false ->
  exists added,
    suggestions (update_suggestions lower text app)
    = firstn 8 (catalog_matches lower text ++ added) /\
    subseq added (rev (Py.last_n 50 (history (input app)))) /\
    NoDup added /\
    (forall x, In x added -> ~ In x (catalog_matches lower text)).
Proof.
  intros Hne Hq. apply PyFacts.truthy_true in Hne.
  unfold update_suggestions. rewrite Hne, Hq. cbn [negb orb].
  cbn [input set_suggestions].
  fold (catalog_matches lower text).
  destruct (search_history_adds (lower text)
              (rev (Py.last_n 50 (history (input app))))
              (catalog_matches lower text)) as (added & -> & Hs & Hn & Hin).
  exists added.
  split; [destruct (catalog_matches lower text ++ added); reflexivity|].
  split; [assumption|]. split; [assumption|].
  intros x Hx. now apply Hin.
Qed.

Lemma update_suggestions_suppressed (text : str) (app : App) :
  text = "" \/ Py.startswith text "?" = true ->
  suggestions (update_suggestions lower text app) = [] /\
  suggestions_visible (update_suggestions lower text app) = false.
Proof.
  intros H. unfold update_suggestions.
  assert (Hc : negb (Py.truthy text) || Py.startswith text "?" = true).
  { destruct H as [-> | ->]; [reflexivity|apply orb_true_r]. }
  rewrite Hc. split; reflexivity.
Qed.

Lemma update_suggestions_at_most_8 (text : str) (app : App) :
  length (suggestions (update_suggestions lower text app)) <= 8.
Proof.
  destruct (negb (Py.truthy text) || Py.startswith text "?") eqn:Hc.
  - unfold update_suggestions. rewrite Hc. cbn. lia.
  - apply orb_false_iff in Hc as [Ht Hq].
    apply negb_false_iff, PyFacts.truthy_true in Ht.
    destruct (update_suggestions_shape text app Ht Hq) as (added & -> & _).
    apply firstn_le_length.
Qed.

(** The catalog is plain ASCII, so its matches for an ASCII text are those
    of the ASCII case mapping. *)
Lemma catalog_is_ascii : forallb Py.is_ascii ALL_COMMANDS = true.
Proof. vm_compute. reflexivity. Qed.

Lemma catalog_matches_ascii (text : str) :
  lower_on_ascii lower -> Py.is_ascii text = true ->
  catalog_matches lower text = catalog_matches Py.ascii_lower text.
Proof.
  intros Hlower Htext. unfold catalog_matches.
  apply filter_ext_in. intros cmd Hcmd.
  rewrite (Hlower text Htext).
  pose proof catalog_is_ascii as Hall. rewrite forallb_forall in Hall.
  now rewrite (Hlower cmd (Hall cmd Hcmd)).
Qed.

End Matching.

Lemma subseq_of_nil {A : Type} (l : list A) : subseq l [] -> l = [].
Proof. intros H. now inversion H. Qed.

End SuggestFacts.

(** C7. The claim holds for the suppression, the bound of eight and the
    order, and fails for the duplicates: the catalog lists [htop] twice
    (under system and under process) and the catalog loop adds both, so for
    the input [htop] the suggestions start with [htop] twice, whatever the
    history holds; with an empty history they are [htop] twice.  Of
    [str.lower] the one fact used is what it does to ASCII text. *)
Theorem C7_catalog_duplicate_shown (lower : str -> str) (app : Main.App) :
  Spec.lower_on_ascii lower ->
  (exists rest,
     Main.suggestions (Main.update_suggestions lower "htop" app)
     = "htop" :: "htop" :: rest) /\
  ~ NoDup (Main.suggestions (Main.update_suggestions lower "htop" app)) /\
  Main.suggestions (Main.update_suggestions lower "htop" Demo.app0)
  = ["htop"; "htop"].
Proof.
  intros Hlower.
  assert (Hcat : Spec.catalog_matches lower "htop" = ["htop"; "htop"]).
  { now rewrite SuggestFacts.catalog_matches_ascii. }
  assert (H : exists rest,
             Main.suggestions (Main.update_suggestions lower "htop" app)
             = "htop" :: "htop" :: rest).
  { destruct (SuggestFacts.update_suggestions_shape lower "htop" app)
      as (added & -> & _); [discriminate|reflexivity|].
    rewrite Hcat. now exists (firstn 6 added). }
  split; [exact H|]. split.
  - destruct H as [rest ->]. intros Hnd.
    inversion Hnd as [|x l Hnotin _]. apply Hnotin. now left.
  - destruct (SuggestFacts.update_suggestions_shape lower "htop" Demo.app0)
      as (added & -> & Hsub & _); [discriminate|reflexivity|].
    apply SuggestFacts.subseq_of_nil in Hsub. subst added.
    now rewrite Hcat.
Qed.

Lemma C7_catalog_duplicate_witness :
  Main.suggestions (Main.update_suggestions Demo.lower "htop" Demo.app0)
  = ["htop"; "htop"].
Proof.
  exact (proj2 (proj2 (C7_catalog_duplicate_shown Demo.lower Demo.app0
                         DemoFacts.demo_lower_on_ascii))).
Defined.

(** ** The scenarios of the specification, run in the small world *)

Example quick_disk :
  AiHelper.get_quick_suggestion Demo.lower "disk usage"
  = Some "du -sh */ | sort -rh | head -20".
Proof. reflexivity. Qed.

Example quick_words :
  AiHelper.get_quick_suggestion Demo.lower "How do I find really LARGE files?"
  = Some "find . -type f -size +100M -exec ls -lh {} \;".
Proof. reflexivity. Qed.

Example quick_none : AiHelper.get_quick_suggestion Demo.lower "hello" = None.
Proof. reflexivity. Qed.

Example strip_both_ends : Py.strip "  ? a b  " = "? a b".
Proof. reflexivity. Qed.

Example split_words :
  Py.split " find  large files " = ["find"; "large"; "files"].
Proof. reflexivity. Qed.

(** [cd /does/not/exist]: one error event, nothing else changed. *)
Example scenario_cd_fails :
  let app := fst (Demo.submit "cd /does/not/exist" Demo.app0 Demo.w0) in
  Main.cwd app = "/home/drey" /\
  filter Spec.is_error (Main.output app)
  = [Main.mkText ("  Error: [Errno 2] No such file or directory: "
                  ++ "'/does/not/exist'" ++ Py.nl) "bold red"] /\
  existsb Spec.is_session (Main.trace app) = false.
Proof. repeat split. Qed.

(** [?  disk usage]: the quick suggestion is written before any fragment of
    the assistant's answer. *)
Example scenario_quick_suggestion :
  exists before after,
    Main.output (fst (Demo.submit "?  disk usage" (Demo.with_key Demo.app0)
                        Demo.w0))
    = before
      ++ Main.mkText ("  du -sh */ | sort -rh | head -20" ++ Py.nl ++ Py.nl)
                     "bold white"
      :: after /\
    Forall (fun t => Spec.is_text_fragment t = false) before /\
    In (Main.mkText "Hi " "white") after.
Proof.
  eexists [_; _; _], _. split; [reflexivity|]. split.
  - repeat constructor.
  - cbn. tauto.
Qed.

(** A payload that decodes to something that is not an event ends the
    stream with an error fragment. *)
Example stream_non_event :
  fst (AiHelper.read_lines Demo.json_loads
         [("data: " ++ Demo.delta_payload "Hi ")%str; "data: 5";
          ("data: " ++ Demo.delta_payload "Hi ")%str] None)
  = [AiHelper.JStr "Hi "]
  /\ snd (AiHelper.read_lines Demo.json_loads
            [("data: " ++ Demo.delta_payload "Hi ")%str; "data: 5";
             ("data: " ++ Demo.delta_payload "Hi ")%str] None)
  = Some (AiHelper.AttributeError (AiHelper.JInt 5) "get").
Proof. split; reflexivity. Qed.

(** ** Further properties of the assistant client *)

Module AskProps.

Import AiHelper.

Section Client.

Variable W : Type.
Variable json_loads : str -> loaded.
Variable exn_message : exn -> str.
Variable http_stream : request -> W -> http_result * W.

Local Abbreviation ask := (ask W json_loads exn_message http_stream).
Local Abbreviation ask_sync := (ask_sync W json_loads exn_message http_stream).

(** Reading goes through a run of frames without the sentinel and on to the
    lines after it. *)
Lemma read_lines_app_frames pre frames rest cut :
  Forall2 (Spec.reads_as json_loads) pre frames ->
  existsb Spec.is_done frames = false ->
  read_lines json_loads (pre ++ rest) cut
  = (Spec.delta_texts frames ++ fst (read_lines json_loads rest cut),
     snd (read_lines json_loads rest cut)).
Proof.
  induction 1 as [|line fr pre frames Hfr _ IH]; intros Hnd.
  - cbn [List.app Spec.delta_texts]. now destruct (read_lines json_loads rest cut).
  - cbn [existsb] in Hnd. apply orb_false_iff in Hnd as [Hfr_nd Hnd].
    specialize (IH Hnd). cbn [List.app].
    destruct Hfr; try discriminate Hfr_nd.
    + rewrite AskFacts.read_lines_skip by assumption. exact IH.
    + rewrite AskFacts.read_lines_data, AskFacts.not_done by assumption.
      now rewrite H0.
    + rewrite AskFacts.read_lines_data, AskFacts.not_done by assumption.
      rewrite H0. simpl on_event. rewrite H1. simpl. rewrite H2, H3, IH.
      reflexivity.
    + rewrite AskFacts.read_lines_data, AskFacts.not_done by assumption.
      rewrite H0. simpl on_event. rewrite H1. simpl.
      destruct H2 as [-> | (dfields & -> & ->)]; now rewrite IH.
    + rewrite AskFacts.read_lines_data, AskFacts.not_done by assumption.
      rewrite H0. simpl on_event.
      destruct (lookup "type" fields) as [ty|] eqn:E.
      * rewrite (H1 ty eq_refl). now rewrite IH.
      * now rewrite IH.
Qed.

(** A response whose status is not 200 gives one fragment, whatever lines
    the response carries: when the body is read and decoded, the fragment
    has the status code and the body in it; when the read or the decoding
    raises, it is the fragment that reports that exception, and the status
    is not shown. *)
Theorem ask_status_error (api_key question : str) (w w' : W)
  (status_code : Z) (body : exn + str) (lines : list str)
  (cut : option exn) :
  api_key <> "" ->
  http_stream (make_request api_key question) w
  = (HttpResponse status_code body lines cut, w') ->
  status_code <> 200%Z ->
  (forall error_text, body = inr error_text ->
     exists text,
       ask api_key question w
       = ([JStr text], [make_request api_key question], w') /\
       text = ("⚠️  API Error: " ++ Py.str_of_int status_code ++ Py.nl
               ++ error_text ++ Py.nl)%str /\
       Py.contains (Py.str_of_int status_code) text = true /\
       Py.contains error_text text = true) /\
  (forall e, body = inl e ->
     ask api_key question w
     = (on_exception exn_message e, [make_request api_key question], w') /\
     exists text, on_exception exn_message e = [JStr text]).
Proof.
  intros Hk Hh Hs. apply PyFacts.truthy_true in Hk. apply Z.eqb_neq in Hs.
  split.
  - intros error_text ->. eexists. split; [|split; [reflexivity|split]].
    + unfold AiHelper.ask. rewrite Hk, Hh, Hs. reflexivity.
    + apply (PyFacts.contains_app (Py.str_of_int status_code)
               "⚠️  API Error: " (Py.nl ++ error_text ++ Py.nl)).
    + replace ("⚠️  API Error: " ++ Py.str_of_int status_code ++ Py.nl
               ++ error_text ++ Py.nl)%str
        with (("⚠️  API Error: " ++ Py.str_of_int status_code ++ Py.nl)
              ++ error_text ++ Py.nl)%str
        by (now rewrite !PyFacts.app_assoc).
      apply PyFacts.contains_app.
  - intros e ->. split.
    + unfold AiHelper.ask. rewrite Hk, Hh, Hs. reflexivity.
    + destruct e; eexists; reflexivity.
Qed.

(** When the connection raises before any response, [ask] gives exactly one
    fragment: the time-out text, the could-not-connect text, or the
    description of any other exception. *)
Theorem ask_transport_error (api_key question : str) (w w' : W) (e : exn) :
  api_key <> "" ->
  http_stream (make_request api_key question) w = (HttpRaises e, w') ->
  exists text,
    ask api_key question w
    = ([JStr text], [make_request api_key question], w') /\
    (e = TimeoutException ->
     text = ("⚠️  Request timed out. Please try again." ++ Py.nl)%str) /\
    (e = ConnectError ->
     text = ("⚠️  Could not connect to AI service. "
             ++ "Check your internet connection." ++ Py.nl)%str) /\
    (e <> TimeoutException -> e <> ConnectError ->
     text = ("⚠️  Error: " ++ exn_message e ++ Py.nl)%str).
Proof.
  intros Hk Hh. apply PyFacts.truthy_true in Hk.
  unfold AiHelper.ask. rewrite Hk, Hh. cbn [negb].
  destruct e; eexists; (split; [reflexivity|]);
    repeat split; intros; congruence.
Qed.

(** A stream cut by an exception keeps the deltas already yielded and ends
    with the one fragment that reports the exception; after the sentinel the
    cut is not seen at all. *)
Theorem ask_cut_mid_stream (api_key question : str) (w w' : W)
  (body : exn + str) (lines : list str) (frames : list Spec.frame) (e : exn) :
  api_key <> "" ->
  http_stream (make_request api_key question) w
  = (HttpResponse 200 body lines (Some e), w') ->
  Forall2 (Spec.reads_as json_loads) lines frames ->
  ask api_key question w
  = (Spec.delta_texts frames
     ++ (if existsb Spec.is_done frames then []
         else on_exception exn_message e),
     [make_request api_key question], w').
Proof.
  intros Hk Hh Hf. apply PyFacts.truthy_true in Hk.
  unfold AiHelper.ask. rewrite Hk, Hh. cbn [negb Z.eqb Pos.eqb].
  rewrite (AskFacts.read_lines_frames json_loads lines frames (Some e) Hf).
  destruct (existsb Spec.is_done frames); [now rewrite app_nil_r|reflexivity].
Qed.

Lemma ask_requests_sent (api_key question : str) (w : W) :
  snd (fst (ask api_key question w))
  = (if is_configured api_key then [make_request api_key question] else []).
Proof.
  unfold AiHelper.ask, is_configured.
  destruct (Py.truthy api_key); [|reflexivity]. cbn [negb].
  destruct (http_stream (make_request api_key question) w)
    as [[e|sc b ls cut] w']; [reflexivity|].
  destruct (negb (sc =? 200)%Z); [now destruct b|].
  destruct (read_lines json_loads ls cut) as [ys [e|]]; reflexivity.
Qed.

(** [ask] sends no request without a credential and exactly one with it,
    whatever the answer: nothing is retried.  The request carries the
    credential and the question and asks for a stream. *)
Theorem ask_sends_at_most_one_request (api_key question : str) (w : W) :
  snd (fst (ask api_key question w))
  = (if is_configured api_key then [make_request api_key question] else []) /\
  x_api_key (make_request api_key question) = api_key /\
  user_content (make_request api_key question) = question /\
  stream (make_request api_key question) = true.
Proof.
  split; [apply ask_requests_sent|now repeat split].
Qed.

(** Only the lines that start with [data: ] count: the others can be taken
    out of the response without changing what is read. *)
Theorem read_lines_only_data (lines : list str) (cut : option exn) :
  read_lines json_loads
    (filter (fun line => Py.startswith line "data: ") lines) cut
  = read_lines json_loads lines cut.
Proof.
  induction lines as [|line lines IH]; [reflexivity|].
  cbn [filter]. destruct (Py.startswith line "data: ") eqn:E.
  - cbn [read_lines]. rewrite E, IH. reflexivity.
  - now rewrite AskFacts.read_lines_skip by exact E.
Qed.

(** A payload that decodes to something other than an object ends the
    stream there: the deltas before it are kept, one error fragment follows,
    and the lines after it are not read. *)
Theorem ask_non_event_payload (api_key question : str) (w w' : W)
  (body : exn + str) (pre post : list str) (frames : list Spec.frame)
  (payload : str) (v : json) (cut : option exn) :
  api_key <> "" ->
  http_stream (make_request api_key question) w
  = (HttpResponse 200 body (pre ++ ("data: " ++ payload)%str :: post) cut,
     w') ->
  Forall2 (Spec.reads_as json_loads) pre frames ->
  existsb Spec.is_done frames = false ->
  payload <> "[DONE]" ->
  json_loads payload = Loaded v ->
  Props.is_dict v = false ->
  ask api_key question w
  = (Spec.delta_texts frames
     ++ [JStr ("⚠️  Error: " ++ exn_message (AttributeError v "get")
               ++ Py.nl)%str],
     [make_request api_key question], w').
Proof.
  intros Hk Hh Hf Hnd Hp Hj Hv. apply PyFacts.truthy_true in Hk.
  unfold AiHelper.ask. rewrite Hk, Hh. cbn [negb Z.eqb Pos.eqb].
  rewrite (read_lines_app_frames pre frames _ cut Hf Hnd).
  rewrite AskFacts.read_lines_data, (AskFacts.not_done _ Hp), Hj.
  destruct v; try discriminate Hv; cbn [on_event fst snd];
    now rewrite app_nil_r.
Qed.

Lemma join_strings (texts : list str) :
  join (map JStr texts) = inr (Props.joined texts).
Proof.
  induction texts as [|t texts IH]; [reflexivity|].
  cbn [map join Props.joined]. now rewrite IH.
Qed.

(** [ask_sync] returns the fragments of [ask] end to end: when they are all
    strings the answer is their concatenation, in order. *)
Theorem ask_sync_concatenates (api_key question : str) (w : W)
  (texts : list str) :
  fst (fst (ask api_key question w)) = map JStr texts ->
  ask_sync api_key question w
  = (inr (Props.joined texts),
     snd (fst (ask api_key question w)), snd (ask api_key question w)).
Proof.
  intros H. unfold AiHelper.ask_sync.
  destruct (ask api_key question w) as [[parts reqs] w'].
  cbn [fst snd] in *. subst parts. now rewrite join_strings.
Qed.

(** A fragment that is not a str makes [ask_sync] raise instead of
    returning a text. *)
Theorem ask_sync_raises_on_non_string (api_key question : str) (w : W)
  (texts : list str) (v : json) (rest : list json) :
  fst (fst (ask api_key question w)) = map JStr texts ++ v :: rest ->
  Props.is_string v = false ->
  fst (fst (ask_sync api_key question w)) = inl (TypeError v).
Proof.
  intros H Hv. unfold AiHelper.ask_sync.
  destruct (ask api_key question w) as [[parts reqs] w'].
  cbn [fst snd] in *. subst parts.
  induction texts as [|t texts IH].
  - cbn [map List.app]. now destruct v.
  - cbn [map List.app join]. now rewrite IH.
Qed.

End Client.

End AskProps.

(** ** Further properties of the dispatcher *)

Module DispatchProps.

Import AiHelper Main.

Section Handlers.

Variable W : Type.
Variable lower : str -> str.
Variable json_loads : str -> loaded.
Variable exn_message : exn -> str.
Variable http_stream : request -> W -> http_result * W.
Variable expanduser : str -> str.
Variable os_chdir : str -> W -> exn + W.
Variable os_getcwd : W -> str.
Variable popen : str -> str -> W -> process * W.

Local Abbreviation ask_ai := (ask_ai W lower json_loads exn_message http_stream).
Local Abbreviation run_command :=
  (run_command W exn_message expanduser os_chdir os_getcwd popen).
Local Abbreviation on_input_submitted :=
  (on_input_submitted W lower json_loads exn_message http_stream expanduser
     os_chdir os_getcwd popen).

Lemma run_command_external command app w :
  Py.startswith command "cd " = false ->
  command <> "clear" -> command <> "exit" -> command <> "quit" ->
  run_command command app w
  = run_external W exn_message popen command (show_command command app) w.
Proof.
  intros Hcd Hclear Hexit Hquit.
  apply PyFacts.eqb_neq in Hclear, Hexit, Hquit.
  unfold Main.run_command. now rewrite Hcd, Hclear, Hexit, Hquit.
Qed.

Lemma run_external_frame command app w :
  cwd (fst (run_external W exn_message popen command app w)) = cwd app /\
  trace (fst (run_external W exn_message popen command app w))
  = trace app ++ [Popen command (cwd app)].
Proof.
  unfold run_external.
  destruct (popen command (cwd app) w) as [[e|reads ending] w'];
    [now split|].
  destruct ending as [e|returncode];
    [|destruct (negb (returncode =? 0)%Z)]; cbn [fst cwd trace write];
    match goal with |- context [read_output reads ?a] =>
      destruct (DispatchFacts.read_output_frame reads a) as (-> & _ & ->) end;
    now split.
Qed.

Lemma run_command_cwd command app w :
  Py.startswith command "cd " = false ->
  cwd (fst (run_command command app w)) = cwd app.
Proof.
  intros Hcd. unfold Main.run_command. rewrite Hcd.
  destruct (Py.eqb command "clear"); [reflexivity|].
  destruct (Py.eqb command "exit" || Py.eqb command "quit");
    [reflexivity|].
  now rewrite (proj1 (run_external_frame _ _ _)).
Qed.

(** The working directory the application shows and spawns in changes only
    through [cd]: any other submission leaves it as it was. *)
Theorem cwd_changes_only_by_cd (submitted : str) (app : App) (w : W) :
  Py.startswith (Py.strip submitted) "cd " = false ->
  cwd (fst (on_input_submitted submitted app w)) = cwd app.
Proof.
  intros Hcd.
  destruct (Py.strip submitted) as [|c0 s0] eqn:Hs.
  { unfold Main.on_input_submitted. now rewrite Hs. }
  rewrite <- Hs in Hcd.
  assert (Hne : Py.strip submitted <> "") by (rewrite Hs; discriminate).
  clear Hs c0 s0.
  destruct (Py.startswith (Py.strip submitted) "?") eqn:Hq.
  - apply PyFacts.startswith_split in Hq.
    rewrite DispatchFacts.submit_question_mark with (1 := Hq).
    destruct (Py.truthy _); [|reflexivity].
    cbn [fst after_submit set_suggestions set_input cwd].
    apply DispatchFacts.ask_ai_frame.
  - destruct (Py.startswith (lower (Py.strip submitted)) "/ask ") eqn:Ha.
    + rewrite DispatchFacts.submit_slash_ask by assumption.
      destruct (Py.truthy _); [|reflexivity].
      cbn [fst after_submit set_suggestions set_input cwd].
      apply DispatchFacts.ask_ai_frame.
    + rewrite DispatchFacts.submit_command by assumption.
      cbn [fst after_submit set_suggestions set_input cwd].
      now apply run_command_cwd.
Qed.

Lemma submit_external_trace (submitted : str) (app : App) (w : W) :
  Props.external lower (Py.strip submitted) ->
  trace (fst (on_input_submitted submitted app w))
  = trace app ++ [Popen (Py.strip submitted) (cwd app)].
Proof.
  intros (Hne & Hq & Ha & Hcd & Hclear & Hexit & Hquit).
  rewrite DispatchFacts.submit_command by assumption.
  cbn [fst after_submit set_suggestions set_input trace].
  rewrite run_command_external by assumption.
  now rewrite (proj2 (run_external_frame _ _ _)).
Qed.

(** An external command is spawned exactly once, with the trimmed line as it
    is and in the application's working directory; nothing else is called,
    and the directory the application shows stays the same. *)
Theorem external_command_spawned_once (submitted : str) (app : App)
  (w : W) :
  Props.external lower (Py.strip submitted) ->
  trace (fst (on_input_submitted submitted app w))
  = trace app ++ [Popen (Py.strip submitted) (cwd app)] /\
  cwd (fst (on_input_submitted submitted app w)) = cwd app.
Proof.
  intros Hext. split; [now apply submit_external_trace|].
  destruct Hext as (Hne & Hq & Ha & Hcd & _).
  rewrite DispatchFacts.submit_command by assumption.
  cbn [fst after_submit set_suggestions set_input cwd].
  now apply run_command_cwd.
Qed.

Lemma submit_cd submitted app w :
  Spec.lower_keeps_slash lower ->
  Py.startswith (Py.strip submitted) "cd " = true ->
  on_input_submitted submitted app w
  = (after_submit (Py.strip submitted)
       (fst (change_directory W exn_message expanduser os_chdir os_getcwd
               (Py.strip submitted)
               (show_command (Py.strip submitted) app) w)),
     snd (change_directory W exn_message expanduser os_chdir os_getcwd
            (Py.strip submitted) (show_command (Py.strip submitted) app) w)).
Proof.
  intros Hlower Hcd.
  pose proof (PyFacts.startswith_split _ _ Hcd) as Hsplit.
  assert (Hne : Py.strip submitted <> "") by (rewrite Hsplit; discriminate).
  assert (Hq : Py.startswith (Py.strip submitted) "?" = false)
    by (rewrite Hsplit; reflexivity).
  assert (Ha : Py.startswith (lower (Py.strip submitted)) "/ask " = false)
    by (now apply DispatchFacts.cd_not_slash_ask).
  rewrite DispatchFacts.submit_command by assumption.
  unfold Main.run_command. now rewrite Hcd.
Qed.

(** After a [cd] that succeeds, the next external command is spawned in the
    directory the process then reports.  Of [str.lower] the one fact used is
    that no line without a slash in front has a lower-case form that starts
    with [/ask ]. *)
Theorem cd_then_command_runs_there (first second : str) (app : App)
  (w w1 : W) :
  let arg := Py.strip (Py.drop 3 (Py.strip first)) in
  let path :=
    if Py.eqb arg "~" then expanduser "~"
    else if Py.startswith arg "~/" then expanduser arg
    else arg in
  Spec.lower_keeps_slash lower ->
  Py.startswith (Py.strip first) "cd " = true ->
  os_chdir path w = inr w1 ->
  Props.external lower (Py.strip second) ->
  let after_cd := on_input_submitted first app w in
  snd after_cd = w1 /\
  trace (fst (on_input_submitted second (fst after_cd) (snd after_cd)))
  = trace app ++ [Chdir path; Popen (Py.strip second) (os_getcwd w1)].
Proof.
  intros arg path Hlower Hcd Hok Hext after_cd.
  assert (Hafter : after_cd
                   = (after_submit (Py.strip first)
                        (write (mkText ("  Changed to: " ++ os_getcwd w1
                                        ++ Py.nl) "dim")
                           (set_cwd_label ("  " ++ os_getcwd w1)
                              (set_cwd (os_getcwd w1)
                                 (record_effects [Chdir path]
                                    (show_command (Py.strip first) app))))),
                      w1)).
  { unfold after_cd. rewrite (submit_cd _ _ _ Hlower Hcd).
    unfold change_directory. fold arg. fold path. now rewrite Hok. }
  rewrite Hafter. split; [reflexivity|]. cbn [fst snd].
  rewrite submit_external_trace by exact Hext.
  cbn. now rewrite <- app_assoc.
Qed.

(** A command that cannot be spawned is reported by one error event after
    the two lines that show it; no output line and no exit status is
    written. *)
Theorem spawn_failure_reported (submitted : str) (app : App) (w w' : W)
  (e : exn) :
  Props.external lower (Py.strip submitted) ->
  popen (Py.strip submitted) (cwd app) w = (SpawnRaises e, w') ->
  output (fst (on_input_submitted submitted app w))
  = output app
    ++ [ mkText (Py.nl ++ "  " ++ cwd app ++ Py.nl) "bold cyan";
         mkText ("  $ " ++ Py.strip submitted ++ Py.nl) "bold green";
         mkText ("  Error: " ++ exn_message e ++ Py.nl) "bold red" ] /\
  snd (on_input_submitted submitted app w) = w'.
Proof.
  intros (Hne & Hq & Ha & Hcd & Hclear & Hexit & Hquit) Hp.
  rewrite DispatchFacts.submit_command by assumption.
  rewrite run_command_external by assumption.
  unfold run_external.
  change (cwd (show_command (Py.strip submitted) app)) with (cwd app).
  rewrite Hp. cbn. rewrite <- !app_assoc. now split.
Qed.

(** [clear] leaves the output log empty, the two lines that showed the
    command included; [exit] and [quit] ask the application to stop, once.
    Neither spawns a process, sends a request or changes the world.  Of
    [str.lower] the one fact used is that no line without a slash in front
    has a lower-case form that starts with [/ask ]. *)
Theorem clear_and_exit (submitted : str) (app : App) (w : W) :
  Spec.lower_keeps_slash lower ->
  (Py.strip submitted = "clear" ->
   output (fst (on_input_submitted submitted app w)) = [] /\
   trace (fst (on_input_submitted submitted app w)) = trace app /\
   snd (on_input_submitted submitted app w) = w) /\
  (Py.strip submitted = "exit" \/ Py.strip submitted = "quit" ->
   trace (fst (on_input_submitted submitted app w)) = trace app ++ [AppExit] /\
   output (fst (on_input_submitted submitted app w))
   = output app
     ++ [ mkText (Py.nl ++ "  " ++ cwd app ++ Py.nl) "bold cyan";
          mkText ("  $ " ++ Py.strip submitted ++ Py.nl) "bold green" ] /\
   snd (on_input_submitted submitted app w) = w).
Proof.
  intros Hlower.
  assert (Hrun : forall c, Py.strip submitted = c ->
                 c <> "" -> Py.startswith c "?" = false ->
                 Py.startswith c "/" = false ->
                 on_input_submitted submitted app w
                 = (after_submit c (fst (run_command c app w)),
                    snd (run_command c app w))).
  { intros c <- Hne Hq Hs.
    apply DispatchFacts.submit_command; try assumption.
    now apply DispatchFacts.word_not_slash_ask. }
  split.
  - intros Hc. rewrite (Hrun _ Hc) by (discriminate || reflexivity).
    now repeat split.
  - intros [Hc|Hc]; rewrite (Hrun _ Hc), Hc by (discriminate || reflexivity);
      cbn; rewrite <- !app_assoc; now repeat split.
Qed.

(** What a submission leaves in the command input: an empty value, the
    trimmed line at the end of the history, the cursor reset. *)
Lemma input_after_submit (submitted : str) (app : App) (w : W) :
  Py.strip submitted <> "" ->
  input (fst (on_input_submitted submitted app w))
  = {| value := ""; history := history (input app) ++ [Py.strip submitted];
       history_index := (-1)%Z |}.
Proof.
  intros Hne.
  assert (Hin : forall r : App * W,
             input (fst r) = input app ->
             input (after_submit (Py.strip submitted) (fst r))
             = {| value := "";
                  history := history (input app) ++ [Py.strip submitted];
                  history_index := (-1)%Z |}).
  { intros r Hr. cbn. now rewrite Hr. }
  destruct (Py.startswith (Py.strip submitted) "?") eqn:Hq.
  - apply PyFacts.startswith_split in Hq.
    rewrite DispatchFacts.submit_question_mark with (1 := Hq).
    destruct (Py.truthy _); [|reflexivity].
    cbn [fst]. apply (Hin (ask_ai _ app w)).
    apply DispatchFacts.ask_ai_frame.
  - destruct (Py.startswith (lower (Py.strip submitted)) "/ask ") eqn:Ha.
    + rewrite DispatchFacts.submit_slash_ask by assumption.
      destruct (Py.truthy _); [|reflexivity].
      cbn [fst]. apply (Hin (ask_ai _ app w)).
      apply DispatchFacts.ask_ai_frame.
    + rewrite DispatchFacts.submit_command by assumption.
      cbn [fst]. apply (Hin (run_command _ app w)).
      apply DispatchFacts.run_command_input.
Qed.

(** Whatever was being recalled before, the first Up after a submission
    recalls the line just submitted, and a Down then empties the input
    again. *)
Theorem submit_then_up_recalls (submitted : str) (app : App) (w : W) :
  Py.strip submitted <> "" ->
  let inp := input (fst (on_input_submitted submitted app w)) in
  let recalled :=
    {| value := Py.strip submitted;
       history := history (input app) ++ [Py.strip submitted];
       history_index := 0%Z |} in
  on_key Up inp = Some recalled /\
  on_key Down recalled = Some inp.
Proof.
  intros Hne inp recalled. unfold inp.
  rewrite (input_after_submit _ _ _ Hne).
  pose proof (HistoryFacts.up_from_fresh
                (history (input app) ++ [Py.strip submitted]) "") as Hup.
  unfold Spec.not_recalling, Spec.recalled in Hup.
  cbn [Nat.sub] in Hup. rewrite rev_app_distr in Hup. cbn in Hup.
  split.
  - apply Hup. now destruct (history (input app)).
  - reflexivity.
Qed.

End Handlers.

End DispatchProps.

(** ** Further properties of the history and of the suggestions *)

Module InputProps.

Import Main Spec.

Lemma index_from_end (h : list str) (i : Z) :
  (1 <= i <= Z.of_nat (length h))%Z ->
  exists v, Py.index h (- i) = Some v /\ In v h.
Proof.
  intros Hi. exists (nth (Z.to_nat i - 1) (rev h) "").
  split.
  - replace i with (Z.of_nat (Z.to_nat i)) at 1 by lia.
    apply HistoryFacts.index_recent. lia.
  - apply in_rev. apply nth_In. rewrite length_rev. lia.
Qed.

(** A key press never raises and never touches the history: from a cursor
    in range it leaves a cursor in range, and the input then holds what it
    held, nothing, or an entry of the history. *)
Theorem on_key_keeps_cursor_in_range (key : Key) (inp : CommandInput) :
  Props.cursor_in_range inp ->
  exists inp',
    on_key key inp = Some inp' /\
    history inp' = history inp /\
    Props.cursor_in_range inp' /\
    (value inp' = value inp \/ value inp' = "" \/
     In (value inp') (history inp)).
Proof.
  unfold Props.cursor_in_range. intros Hr.
  destruct inp as [v h i]. cbn [history history_index value] in *.
  destruct key; unfold on_key; cbn [history history_index value].
  - destruct (negb (Nat.eqb (length h) 0)
              && (i <? Z.of_nat (length h) - 1)%Z) eqn:Hc.
    + apply andb_true_iff in Hc as [_ Hlt]. apply Z.ltb_lt in Hlt.
      destruct (index_from_end h (i + 1 + 1)) as (x & Hx & Hin); [lia|].
      rewrite Hx. eexists. split; [reflexivity|]. cbn.
      split; [reflexivity|]. split; [lia|]. right; right; exact Hin.
    + exists {| value := v; history := h; history_index := i |}.
      cbn. split; [reflexivity|]. split; [reflexivity|]. split; [lia|]. now left.
  - destruct (i >? 0)%Z eqn:Hpos.
    + apply Z.gtb_lt in Hpos.
      destruct (index_from_end h (i - 1 + 1)) as (x & Hx & Hin); [lia|].
      rewrite Hx. eexists. split; [reflexivity|]. cbn.
      split; [reflexivity|]. split; [lia|]. right; right; exact Hin.
    + destruct (i =? 0)%Z eqn:Hz.
      * eexists. split; [reflexivity|]. cbn.
        split; [reflexivity|]. split; [lia|]. right; left; reflexivity.
      * exists {| value := v; history := h; history_index := i |}.
        cbn. split; [reflexivity|]. split; [reflexivity|]. split; [lia|]. now left.
  - exists {| value := v; history := h; history_index := i |}.
    cbn. split; [reflexivity|]. split; [reflexivity|]. split; [lia|]. now left.
Qed.

Lemma rstrip_keeps_head (c : N) (r : str) :
  Py.isspace c = false -> Py.rstrip (Str c r) = Str c (Py.rstrip r).
Proof.
  intros Hc. cbn [Py.rstrip]. rewrite Hc. now destruct (Py.rstrip r).
Qed.

(** Trimming a trimmed text changes nothing. *)
Lemma strip_idem (s : str) : Py.strip (Py.strip s) = Py.strip s.
Proof.
  unfold Py.strip.
  assert (Hl : Py.lstrip (Py.rstrip (Py.lstrip s)) = Py.rstrip (Py.lstrip s)).
  { destruct (Py.lstrip s) as [|c r] eqn:E; [reflexivity|].
    pose proof (PyFacts.lstrip_head s c r E) as Hc.
    rewrite (rstrip_keeps_head c r Hc). cbn [Py.lstrip]. now rewrite Hc. }
  rewrite Hl. apply PyFacts.rstrip_idem.
Qed.

(** The history imported from the file holds trimmed, non-blank texts only,
    each of them a line among the last 500 of the file; without a readable
    file it is empty. *)
Theorem load_history_entries (lines : list str) :
  (forall e, In e (history (load_history (FileLines lines))) ->
     e <> "" /\ Py.strip e = e /\
     exists line, In line (Py.last_n 500 lines) /\ e = Py.strip line) /\
  history_index (load_history (FileLines lines)) = (-1)%Z /\
  history (load_history NoFile) = [] /\
  history (load_history ReadRaises) = [].
Proof.
  split; [|now repeat split].
  intros e He. cbn [load_history history] in He.
  apply in_map_iff in He as (line & <- & Hline).
  apply filter_In in Hline as [Hin Ht].
  apply PyFacts.truthy_true in Ht.
  split; [exact Ht|]. split; [apply strip_idem|]. now exists line.
Qed.

(** Every suggestion contains the typed text, case apart ([lower] is
    [str.lower], whatever it does to the two texts), and comes from the
    catalog or from the 50 most recent entries of the history. *)
Theorem suggestions_match_and_come_from (lower : str -> str) (text : str)
  (app : App) (s : str) :
  In s (suggestions (update_suggestions lower text app)) ->
  Py.contains (lower text) (lower s) = true /\
  (In s ALL_COMMANDS \/ In s (Py.last_n 50 (history (input app)))).
Proof.
  destruct (negb (Py.truthy text) || Py.startswith text "?") eqn:Hc.
  - unfold update_suggestions. rewrite Hc. intros [].
  - unfold update_suggestions. rewrite Hc.
    cbn [input set_suggestions].
    destruct (SuggestFacts.search_history_adds lower (lower text)
                (rev (Py.last_n 50 (history (input app))))
                (filter (fun cmd => Py.contains (lower text) (lower cmd))
                        ALL_COMMANDS))
      as (added & -> & Hs & _ & Hin).
    set (found := filter _ ALL_COMMANDS ++ added).
    intros Hs_in.
    assert (Hfound : In s found).
    { destruct found as [|s0 found]; [destruct Hs_in|].
      cbn [suggestions set_suggestions set_current_suggestions
           current_suggestions List.app] in Hs_in.
      rewrite <- (firstn_skipn 8 (s0 :: found)).
      apply in_or_app. now left. }
    apply in_app_or in Hfound as [Hcat|Hadd].
    + apply filter_In in Hcat as [Hcat Hm]. split; [exact Hm|now left].
    + split; [now apply Hin|]. right.
      apply in_rev. clear - Hs Hadd.
      induction Hs; [assumption|right; auto|].
      destruct Hadd as [<-|Hadd]; [now left|right; auto].
Qed.

(** When the catalog entries that match are all different, no suggestion is
    shown twice: an entry of the history is added only if it is not in the
    list yet. *)
Theorem suggestions_distinct (lower : str -> str) (text : str)
  (app : App) :
  NoDup (catalog_matches lower text) ->
  NoDup (suggestions (update_suggestions lower text app)).
Proof.
  intros Hcat.
  destruct (negb (Py.truthy text) || Py.startswith text "?") eqn:Hc.
  - unfold update_suggestions. rewrite Hc. constructor.
  - apply orb_false_iff in Hc as [Ht Hq].
    apply negb_false_iff, PyFacts.truthy_true in Ht.
    destruct (SuggestFacts.update_suggestions_shape lower text app Ht Hq)
      as (added & -> & _ & Hnd & Hnew).
    apply (NoDup_app_remove_r _ (skipn 8 (catalog_matches lower text ++ added))).
    rewrite firstn_skipn. apply NoDup_app; try assumption.
    intros x Hx Hx'. exact (Hnew x Hx' Hx).
Qed.

(** The list is shown exactly when it has an item. *)
Theorem suggestions_visible_iff (lower : str -> str) (text : str)
  (app : App) :
  suggestions_visible (update_suggestions lower text app) = true
  <-> suggestions (update_suggestions lower text app) <> [].
Proof.
  unfold update_suggestions.
  destruct (negb (Py.truthy text) || Py.startswith text "?").
  - cbn. split; [discriminate|congruence].
  - cbn [input set_suggestions].
    match goal with |- context [search_history ?t ?h ?m] =>
      destruct (search_history t h m) as [|x l] end.
    + cbn. split; [discriminate|congruence].
    + cbn. split; [discriminate|reflexivity].
Qed.

(** No more than eight suggestions are ever listed, and none at all, with
    the list hidden, while the input is empty or starts with [?]. *)
Theorem suggestions_bounded_and_suppressed (lower : str -> str) (text : str)
  (app : App) :
  length (suggestions (update_suggestions lower text app)) <= 8 /\
  (text = "" \/ Py.startswith text "?" = true ->
   suggestions (update_suggestions lower text app) = [] /\
   suggestions_visible (update_suggestions lower text app) = false).
Proof.
  split.
  - destruct (negb (Py.truthy text) || Py.startswith text "?") eqn:Hc.
    + unfold update_suggestions. rewrite Hc. cbn. lia.
    + apply orb_false_iff in Hc as [Ht Hq].
      apply negb_false_iff, PyFacts.truthy_true in Ht.
      destruct (SuggestFacts.update_suggestions_shape lower text app Ht Hq)
        as (added & -> & _).
      apply firstn_le_length.
  - intros H. unfold update_suggestions.
    assert (Hc : negb (Py.truthy text) || Py.startswith text "?" = true).
    { destruct H as [-> | ->]; [reflexivity|apply orb_true_r]. }
    rewrite Hc. split; reflexivity.
Qed.

End InputProps.

(** ** Further properties of the transcript and of the menus *)

Module OutputProps.

Import AiHelper Main.

Lemma string_app_nil_r (s : str) : (s ++ "")%str = s.
Proof. induction s as [|c s IH]; [reflexivity|simpl; now rewrite IH]. Qed.



Lemma write_lines_written (later : bool) (lines : list str) (app : App) :
  exists events,
    output (write_lines later lines app) = output app ++ events /\
    Forall (fun t => Spec.is_text_fragment t = true) events /\
    Props.text_of events = Props.laid_out later lines.
Proof.
  revert later app; induction lines as [|line lines IH]; intros later app.
  - exists []. cbn. now rewrite app_nil_r.
  - cbn [write_lines Props.laid_out].
    match goal with |- context [write_lines true lines ?a] =>
      destruct (IH true a) as (events & -> & Hw & Ht) end.
    destruct line as [|c line], later; cbn [Py.truthy output write].
    + exists (mkText (Py.nl ++ "  ") "white" :: events).
      rewrite <- app_assoc. repeat split; [now constructor|].
      cbn [Props.text_of content]. now rewrite Ht.
    + exists events. repeat split; assumption.
    + exists (mkText (Py.nl ++ "  ") "white" :: mkText (Str c line) "white"
              :: events).
      rewrite <- !app_assoc. repeat split; [now repeat constructor|].
      cbn [Props.text_of content]. now rewrite Ht.
    + exists (mkText (Str c line) "white" :: events).
      rewrite <- app_assoc. repeat split; [now constructor|].
      cbn [Props.text_of content]. now rewrite Ht.
Qed.

Section Transcript.

Variable W : Type.
Variable lower : str -> str.
Variable json_loads : str -> loaded.
Variable exn_message : exn -> str.
Variable http_stream : request -> W -> http_result * W.

Local Abbreviation ask_ai := (ask_ai W lower json_loads exn_message http_stream).


(** A fragment that is not a str stops the writing: what came before it
    is written, then one error event, and nothing of what follows. *)
Theorem drain_stops_at_non_string (chunks : list str) (v : json)
  (rest : list json) (app : App) :
  Props.is_string v = false ->
  drain exn_message (map JStr chunks ++ v :: rest) app
  = write (mkText (Py.nl ++ "  Error: "
                   ++ exn_message (AttributeError v "split") ++ Py.nl)
                  "bold red")
          (drain exn_message (map JStr chunks) app).
Proof.
  intros Hv. revert app; induction chunks as [|chunk chunks IH]; intros app.
  - cbn [map List.app drain]. now destruct v.
  - cbn [map List.app drain]. apply IH.
Qed.

Lemma drain_extends (chunks : list json) (app : App) :
  exists events, output (drain exn_message chunks app) = output app ++ events.
Proof.
  revert app; induction chunks as [|chunk chunks IH]; intros app.
  - exists []. cbn. now rewrite app_nil_r.
  - destruct chunk; try (eexists; reflexivity).
    cbn [drain].
    destruct (write_lines_written false (Py.split_on Py.LF s) app)
      as (first & Hfirst & _).
    destruct (IH (write_lines false (Py.split_on Py.LF s) app))
      as (more & ->).
    exists (first ++ more). now rewrite Hfirst, <- app_assoc.
Qed.

Lemma quick_commands_not_empty (query quick : str) :
  get_quick_suggestion lower query = Some quick -> Py.truthy quick = true.
Proof.
  intros H. unfold get_quick_suggestion in H.
  pose proof (QuickFacts.quick_scan_first QUICK_SUGGESTIONS (lower query))
    as Hscan.
  rewrite H in Hscan. destruct Hscan as (pre & key & post & Heq & _).
  assert (Hall : Forall (fun kc => Py.truthy (snd kc) = true) QUICK_SUGGESTIONS)
    by (repeat constructor).
  rewrite Forall_forall in Hall.
  apply (Hall (key, quick)). rewrite Heq. apply in_elt.
Qed.

(** When a key of the quick-answer table matches, the canned command is
    written right after the question, before anything the assistant answers,
    and the assistant is asked all the same.  The match is
    [get_quick_suggestion]'s, with [str.lower] for [lower]. *)
Theorem quick_suggestion_shown_first (query quick : str) (app : App)
  (w : W) :
  get_quick_suggestion lower query = Some quick ->
  (exists answer,
     output (fst (ask_ai query app w))
     = output app
       ++ [ mkText (Py.nl ++ "  ðŸ¤– AI Query:" ++ Py.nl) "bold magenta";
            mkText ("  ? " ++ query ++ Py.nl ++ Py.nl) "bold yellow";
            mkText ("  ðŸ’¡ Quick Suggestion:" ++ Py.nl) "bold green";
            mkText ("  " ++ quick ++ Py.nl ++ Py.nl) "bold white";
            mkText ("  (Asking AI for more details...)" ++ Py.nl ++ Py.nl)
                   "dim";
            mkText "  " "white" ]
       ++ answer) /\
  trace (fst (ask_ai query app w))
  = trace app
    ++ (if is_configured (api_key app)
        then [HttpPost (make_request (api_key app) query)] else []).
Proof.
  intros Hq. pose proof (quick_commands_not_empty _ _ Hq) as Ht.
  split.
  - unfold Main.ask_ai. rewrite Hq, Ht. cbv zeta.
    match goal with |- context [ask W json_loads exn_message http_stream ?k query w] =>
      destruct (ask W json_loads exn_message http_stream k query w)
        as [[chunks reqs] w'] end.
    cbn [fst output write].
    match goal with |- context [drain exn_message chunks ?a] =>
      destruct (drain_extends chunks a) as (events & ->) end.
    exists (events ++ [mkText (Py.nl ++ Py.nl) "white"]).
    cbn [output record_effects write]. rewrite <- !app_assoc. reflexivity.
  - rewrite (proj1 (DispatchFacts.ask_ai_frame _ _ _ _ _ _ _ _)).
    f_equal.
    rewrite (AskProps.ask_requests_sent _ _ _ _ _ _ _).
    now destruct (is_configured (api_key app)).
Qed.

End Transcript.

(** *** Menus *)

Section Menus.

(** [str.lower] and [str.upper] *)
Variable lower : str -> str.
Variable upper : str -> str.

Local Abbreviation show_category_commands := (show_category_commands upper).
Local Abbreviation on_button_pressed := (on_button_pressed upper).
Local Abbreviation run_action := (run_action lower upper).

Lemma show_commands_written (commands : list str) (app : App) :
  show_commands commands app
  = fold_left (fun a t => write t a)
      (map (fun cmd => mkText ("    â€¢ " ++ cmd ++ Py.nl) "white") commands)
      app.
Proof.
  revert app; induction commands as [|cmd commands IH]; intros app;
    [reflexivity|apply IH].
Qed.

Lemma show_quick_items_written (items : list (str * str)) (app : App) :
  show_quick_items items app
  = fold_left (fun a t => write t a)
      (flat_map (fun kc =>
                   [ mkText ("    â€¢ " ++ fst kc ++ ": ") "white";
                     mkText (preview (snd kc) ++ Py.nl) "dim" ]) items)
      app.
Proof.
  revert app; induction items as [|[key cmd] items IH]; intros app;
    [reflexivity|apply IH].
Qed.

Lemma show_categories_written (table : list (str * list str))
  (app : App) :
  show_categories table app
  = fold_left (fun a t => write t a)
      (map (fun entry => mkText ("    â€¢ " ++ fst entry ++ Py.nl) "white")
           table)
      app.
Proof.
  revert app; induction table as [|[name cmds] table IH]; intros app;
    [reflexivity|apply IH].
Qed.

(** Writing changes the output log only, by appending. *)
Lemma writes_frame (events : list Text) (app : App) :
  fold_left (fun a t => write t a) events app
  = {| cwd := cwd app; current_suggestions := current_suggestions app;
       api_key := api_key app; output := output app ++ events;
       cwd_label := cwd_label app; suggestions := suggestions app;
       suggestions_visible := suggestions_visible app; input := input app;
       trace := trace app |}.
Proof.
  revert app; induction events as [|t events IH]; intros app.
  - cbn. rewrite app_nil_r. now destruct app.
  - cbn [fold_left]. rewrite IH. cbn. now rewrite <- app_assoc.
Qed.

Lemma show_category_commands_written (category : str) (app : App) :
  show_category_commands category app
  = {| cwd := cwd app; current_suggestions := current_suggestions app;
       api_key := api_key app;
       output :=
         output app
         ++ mkText (Py.nl ++ "  " ++ upper category ++ " Commands:" ++ Py.nl)
                   "bold cyan"
         :: map (fun cmd => mkText ("    â€¢ " ++ cmd ++ Py.nl) "white")
                (category_commands COMMAND_SUGGESTIONS category)
         ++ [mkText (Py.nl ++ "  Type or click a command to run it." ++ Py.nl)
                    "dim"];
       cwd_label := cwd_label app; suggestions := suggestions app;
       suggestions_visible := suggestions_visible app; input := input app;
       trace := trace app |}.
Proof.
  unfold Main.show_category_commands. rewrite show_commands_written, writes_frame.
  unfold write.
  cbn [cwd current_suggestions api_key output cwd_label suggestions
       suggestions_visible input trace].
  f_equal. rewrite <- !app_assoc. reflexivity.
Qed.

(** A category menu lists the commands of the category, in the order of
    the table, between a heading with the category's name in capitals and a
    closing line; for a name that is no category it writes the heading and
    the closing line only. *)
Theorem category_menu_lists_commands (category : str) (app : App) :
  output (show_category_commands category app)
  = output app
    ++ mkText (Py.nl ++ "  " ++ upper category ++ " Commands:" ++ Py.nl)
              "bold cyan"
    :: map (fun cmd => mkText ("    â€¢ " ++ cmd ++ Py.nl) "white")
           (category_commands COMMAND_SUGGESTIONS category)
    ++ [mkText (Py.nl ++ "  Type or click a command to run it." ++ Py.nl)
               "dim"] /\
  ((forall name commands,
      In (name, commands) COMMAND_SUGGESTIONS -> name <> category) ->
   output (show_category_commands category app)
   = output app
     ++ [ mkText (Py.nl ++ "  " ++ upper category ++ " Commands:" ++ Py.nl)
                 "bold cyan";
          mkText (Py.nl ++ "  Type or click a command to run it." ++ Py.nl)
                 "dim" ]).
Proof.
  rewrite show_category_commands_written. cbn [output].
  split; [reflexivity|].
  intros Hno.
  assert (Hnone : category_commands COMMAND_SUGGESTIONS category = []).
  { revert Hno. generalize COMMAND_SUGGESTIONS as table.
    induction table as [|[name commands] table IH]; intros Hno;
      [reflexivity|].
    cbn [category_commands].
    destruct (PyFacts.eqb_spec name category) as [->|_].
    - exfalso. apply (Hno category commands); [now left|reflexivity].
    - apply IH. intros n c Hin. apply (Hno n c). now right. }
  now rewrite Hnone.
Qed.

Lemma all_commands_concat (table : list (str * list str))
  (init : list str) :
  fold_left (fun acc entry => acc ++ snd entry) table init
  = init ++ concat (map snd table).
Proof.
  revert init; induction table as [|entry table IH]; intros init.
  - cbn. now rewrite app_nil_r.
  - cbn [fold_left map concat]. now rewrite IH, <- app_assoc.
Qed.

(** The suggestion catalog is the categories' lists end to end, so whatever
    a category menu lists is in the catalog, and everything in the catalog
    is listed by some category. *)
Theorem menu_commands_are_in_the_catalog (cmd : str) :
  (forall category,
      In cmd (category_commands COMMAND_SUGGESTIONS category) ->
      In cmd ALL_COMMANDS) /\
  (In cmd ALL_COMMANDS ->
   exists category commands,
     In (category, commands) COMMAND_SUGGESTIONS /\ In cmd commands).
Proof.
  unfold ALL_COMMANDS. rewrite all_commands_concat. cbn [List.app].
  generalize COMMAND_SUGGESTIONS as table. intros table. split.
  - intros category.
    induction table as [|[name commands] table IH]; [intros []|].
    cbn [category_commands map concat snd]. intros H. apply in_or_app.
    destruct (Py.eqb name category); [now left|right; auto].
  - intros H. apply in_concat in H as (commands & Hc & Hin).
    apply in_map_iff in Hc as ([name cs] & <- & Hentry).
    now exists name, cs.
Qed.

(** The preview of a command in the help is the command itself when it has
    at most 50 characters; a longer one is cut to its first 50 characters
    followed by three dots. *)
Theorem preview_bounded (cmd : str) :
  Py.len (preview cmd) <= 53 /\
  (Py.len cmd <= 50 -> preview cmd = cmd) /\
  (50 < Py.len cmd ->
   preview cmd = (Py.take 50 cmd ++ "...")%str /\
   Py.len (preview cmd) = 53 /\
   Py.startswith cmd (Py.take 50 cmd) = true).
Proof.
  assert (Htake_len : forall n s, Py.len (Py.take n s)
                                  = Nat.min n (Py.len s)).
  { induction n as [|n IH]; intros [|c s]; cbn; try reflexivity.
    now rewrite IH. }
  assert (Htake_all : forall n s, Py.len s <= n -> Py.take n s = s).
  { induction n as [|n IH]; intros [|c s] H; cbn in *; try reflexivity;
      try lia. f_equal. apply IH. lia. }
  assert (Htake_prefix : forall n s, Py.startswith s (Py.take n s) = true).
  { induction n as [|n IH]; intros [|c s]; cbn; try reflexivity.
    now rewrite N.eqb_refl, IH. }
  unfold preview.
  destruct (Nat.ltb_spec 50 (Py.len cmd)) as [Hlong|Hshort].
  - rewrite PyFacts.app_length, Htake_len. cbn [Py.len].
    repeat split; try lia. apply Htake_prefix.
  - rewrite string_app_nil_r, Htake_all by lia.
    repeat split; lia.
Qed.

(** Buttons and menu keys run nothing: whatever button is pressed, the
    output log is only appended to and nothing else changes; whatever
    action a key triggers, no call to the outside is made and the working
    directory, the credential and the history stay as they are; a button
    whose id is none of the six changes nothing at all. *)
Theorem buttons_and_actions_run_nothing (app : App) :
  (forall button_id,
     exists events,
       on_button_pressed button_id app
       = {| cwd := cwd app; current_suggestions := current_suggestions app;
            api_key := api_key app; output := output app ++ events;
            cwd_label := cwd_label app; suggestions := suggestions app;
            suggestions_visible := suggestions_visible app;
            input := input app; trace := trace app |}) /\
  (forall a,
     trace (run_action a app) = trace app /\
     cwd (run_action a app) = cwd app /\
     api_key (run_action a app) = api_key app /\
     input (run_action a app) = input app) /\
  (forall button_id,
     ~ In button_id ["btn-ai"; "btn-docker"; "btn-git"; "btn-system";
                     "btn-files"; "btn-network"] ->
     on_button_pressed button_id app = app).
Proof.
  assert (Hcat : forall category,
             exists events,
               show_category_commands category app
               = {| cwd := cwd app;
                    current_suggestions := current_suggestions app;
                    api_key := api_key app; output := output app ++ events;
                    cwd_label := cwd_label app; suggestions := suggestions app;
                    suggestions_visible := suggestions_visible app;
                    input := input app; trace := trace app |}).
  { intros category. eexists.
    exact (show_category_commands_written category app). }
  assert (Hhelp : exists events,
             show_ai_help app
             = {| cwd := cwd app;
                  current_suggestions := current_suggestions app;
                  api_key := api_key app; output := output app ++ events;
                  cwd_label := cwd_label app; suggestions := suggestions app;
                  suggestions_visible := suggestions_visible app;
                  input := input app; trace := trace app |}).
  { exists (Props.help_events (is_configured (api_key app))).
    rewrite <- writes_frame. unfold show_ai_help, Props.help_events.
    rewrite show_quick_items_written, !fold_left_app.
    repeat match goal with
           | |- context [is_configured (api_key (write ?t ?a))] =>
               change (api_key (write t a)) with (api_key a)
           end.
    destruct (is_configured (api_key app)); reflexivity. }
  split; [|split].
  - intros button_id. unfold Main.on_button_pressed.
    repeat match goal with
           | |- context [if ?b then _ else _] => destruct b
           end; try apply Hcat; try exact Hhelp.
    exists []. rewrite app_nil_r. now destruct app.
  - intros a. destruct a; cbn [Main.run_action].
    + now repeat split.
    + destruct (Hcat "docker") as (ev & ->). now repeat split.
    + destruct (Hcat "git") as (ev & ->). now repeat split.
    + destruct Hhelp as (ev & ->). now repeat split.
    + now repeat split.
    + unfold action_show_suggestions.
      destruct (Py.truthy (value (input app))).
      * unfold update_suggestions.
        destruct (negb _ || _); [now repeat split|].
        cbn [input set_suggestions].
        match goal with |- context [search_history ?t ?h ?m] =>
          destruct (search_history t h m) end; now repeat split.
      * rewrite show_categories_written, writes_frame. now repeat split.
  - intros button_id Hid. unfold Main.on_button_pressed.
    repeat match goal with
           | |- context [if Py.eqb button_id ?known then _ else _] =>
               destruct (PyFacts.eqb_spec button_id known) as [->|_];
               [exfalso; apply Hid; cbn; tauto|]
           end.
    reflexivity.
Qed.

End Menus.

End OutputProps.

(** ** The further properties at work in the small worlds *)

Lemma ask_status_error_witness :
  (exists text,
     AiHelper.ask Demo.W Demo.json_loads Demo.exn_message
       Faults.http_overloaded "sk-test" "list files" Demo.w0
     = ([AiHelper.JStr text], [AiHelper.make_request "sk-test" "list files"],
        Demo.w0) /\
     Py.contains "529" text = true) /\
  AiHelper.ask Demo.W Demo.json_loads Demo.exn_message Faults.http_unreadable
    "sk-test" "list files" Demo.w0
  = ([AiHelper.JStr ("⚠️  Request timed out. Please try again." ++ Py.nl)],
     [AiHelper.make_request "sk-test" "list files"], Demo.w0).
Proof.
  split.
  - destruct (AskProps.ask_status_error Demo.W Demo.json_loads
                Demo.exn_message Faults.http_overloaded "sk-test" "list files"
                Demo.w0 Demo.w0 529%Z (inr "Overloaded")
                [("data: " ++ Demo.delta_payload "Hi ")%str] None)
      as [Hread _]; [discriminate|reflexivity|discriminate|].
    destruct (Hread "Overloaded" eq_refl) as (text & Hask & _ & Hstatus & _).
    exists text. split; [exact Hask|exact Hstatus].
  - destruct (AskProps.ask_status_error Demo.W Demo.json_loads
                Demo.exn_message Faults.http_unreadable "sk-test" "list files"
                Demo.w0 Demo.w0 500%Z (inl AiHelper.TimeoutException) [] None)
      as [_ Hraise]; [discriminate|reflexivity|discriminate|].
    exact (proj1 (Hraise AiHelper.TimeoutException eq_refl)).
Defined.

Lemma ask_transport_error_witness :
  exists text,
    AiHelper.ask Demo.W Demo.json_loads Demo.exn_message Faults.http_down
      "sk-test" "list files" Demo.w0
    = ([AiHelper.JStr text], [AiHelper.make_request "sk-test" "list files"],
       Demo.w0) /\
    text = ("⚠️  Could not connect to AI service. "
            ++ "Check your internet connection." ++ Py.nl)%str.
Proof.
  destruct (AskProps.ask_transport_error Demo.W Demo.json_loads
              Demo.exn_message Faults.http_down "sk-test" "list files"
              Demo.w0 Demo.w0 AiHelper.ConnectError)
    as (text & Hask & _ & Hconnect & _); [discriminate|reflexivity|].
  exists text. split; [exact Hask|now apply Hconnect].
Defined.

Lemma ask_cut_mid_stream_witness :
  AiHelper.ask Demo.W Demo.json_loads Demo.exn_message Faults.http_stalls
    "sk-test" "list files" Demo.w0
  = ([AiHelper.JStr "Hi ";
      AiHelper.JStr ("⚠️  Request timed out. Please try again." ++ Py.nl)],
     [AiHelper.make_request "sk-test" "list files"], Demo.w0).
Proof.
  apply (AskProps.ask_cut_mid_stream Demo.W Demo.json_loads Demo.exn_message
           Faults.http_stalls "sk-test" "list files" Demo.w0 Demo.w0 (inr "")
           [("data: " ++ Demo.delta_payload "Hi ")%str]
           [Spec.ContentDelta (AiHelper.JStr "Hi ")]
           AiHelper.TimeoutException).
  - discriminate.
  - reflexivity.
  - repeat constructor.
    apply (Spec.reads_delta Demo.json_loads (Demo.delta_payload "Hi ")
             [("type", AiHelper.JStr "content_block_delta");
              ("delta", AiHelper.JDict [("text", AiHelper.JStr "Hi ")])]
             [("text", AiHelper.JStr "Hi ")]);
      (discriminate || reflexivity).
Defined.

Lemma ask_non_event_payload_witness :
  AiHelper.ask Demo.W Demo.json_loads Demo.exn_message Faults.http_number
    "sk-test" "list files" Demo.w0
  = ([AiHelper.JStr "Hi ";
      AiHelper.JStr ("⚠️  Error: 'int' object has no attribute 'get'" ++ Py.nl)],
     [AiHelper.make_request "sk-test" "list files"], Demo.w0).
Proof.
  apply (AskProps.ask_non_event_payload Demo.W Demo.json_loads
           Demo.exn_message Faults.http_number "sk-test" "list files"
           Demo.w0 Demo.w0 (inr "")
           [("data: " ++ Demo.delta_payload "Hi ")%str]
           [("data: " ++ Demo.delta_payload "Hi ")%str]
           [Spec.ContentDelta (AiHelper.JStr "Hi ")]
           "5" (AiHelper.JInt 5) None).
  - discriminate.
  - reflexivity.
  - repeat constructor.
    apply (Spec.reads_delta Demo.json_loads (Demo.delta_payload "Hi ")
             [("type", AiHelper.JStr "content_block_delta");
              ("delta", AiHelper.JDict [("text", AiHelper.JStr "Hi ")])]
             [("text", AiHelper.JStr "Hi ")]);
      (discriminate || reflexivity).
  - reflexivity.
  - discriminate.
  - reflexivity.
  - reflexivity.
Defined.

Lemma ask_sync_concatenates_witness :
  fst (fst (AiHelper.ask_sync Demo.W Demo.json_loads Demo.exn_message
              Demo.http_stream "sk-test" "list files" Demo.w0))
  = inr ("Hi ls -la" ++ Py.nl ++ "pwd")%str.
Proof.
  rewrite (AskProps.ask_sync_concatenates Demo.W Demo.json_loads
             Demo.exn_message Demo.http_stream "sk-test" "list files" Demo.w0
             ["Hi "; Demo.two_lines] eq_refl).
  reflexivity.
Defined.

Lemma ask_sync_raises_witness :
  fst (fst (AiHelper.ask_sync Demo.W Faults.json_loads Demo.exn_message
              Faults.http_number_delta "sk-test" "list files" Demo.w0))
  = inl (AiHelper.TypeError (AiHelper.JInt 7)).
Proof.
  apply (AskProps.ask_sync_raises_on_non_string Demo.W Faults.json_loads
           Demo.exn_message Faults.http_number_delta "sk-test" "list files"
           Demo.w0 ["Hi "] (AiHelper.JInt 7) [AiHelper.JStr "Hi "]);
    reflexivity.
Defined.

Lemma cwd_changes_only_by_cd_witness :
  Main.cwd (fst (Demo.submit "echo hi" Demo.app0 Demo.w0)) = "/home/drey".
Proof.
  apply (DispatchProps.cwd_changes_only_by_cd Demo.W Demo.lower Demo.json_loads
           Demo.exn_message Demo.http_stream Demo.expanduser Demo.os_chdir
           Demo.os_getcwd Demo.popen "echo hi" Demo.app0 Demo.w0).
  reflexivity.
Defined.

Lemma external_command_spawned_once_witness :
  Main.trace (fst (Demo.submit " echo hi " Demo.app0 Demo.w0))
  = [Main.Popen "echo hi" "/home/drey"].
Proof.
  apply (proj1 (DispatchProps.external_command_spawned_once Demo.W Demo.lower
                  Demo.json_loads Demo.exn_message Demo.http_stream
                  Demo.expanduser Demo.os_chdir Demo.os_getcwd Demo.popen
                  " echo hi " Demo.app0 Demo.w0
                  ltac:(repeat split; (reflexivity || discriminate)))).
Defined.

Lemma cd_then_command_runs_there_witness :
  Main.trace
    (fst (Demo.submit " echo hi "
            (fst (Demo.submit "cd /tmp" Demo.app0 Demo.w0))
            (snd (Demo.submit "cd /tmp" Demo.app0 Demo.w0))))
  = [Main.Chdir "/tmp"; Main.Popen "echo hi" "/tmp"].
Proof.
  apply (DispatchProps.cd_then_command_runs_there Demo.W Demo.lower Demo.json_loads
           Demo.exn_message Demo.http_stream Demo.expanduser Demo.os_chdir
           Demo.os_getcwd Demo.popen "cd /tmp" " echo hi " Demo.app0 Demo.w0
           "/tmp").
  - exact DemoFacts.demo_lower_keeps_slash.
  - reflexivity.
  - reflexivity.
  - repeat split; (reflexivity || discriminate).
Defined.

Lemma spawn_failure_reported_witness :
  Main.output
    (fst (Main.on_input_submitted Demo.W Demo.lower Demo.json_loads Demo.exn_message
            Demo.http_stream Demo.expanduser Demo.os_chdir Demo.os_getcwd
            Faults.popen_denied "ls" Demo.app0 Demo.w0))
  = [ Main.mkText (Py.nl ++ "  /home/drey" ++ Py.nl) "bold cyan";
      Main.mkText ("  $ ls" ++ Py.nl) "bold green";
      Main.mkText ("  Error: [Errno 13] Permission denied: '/bin/sh'" ++ Py.nl)
                  "bold red" ].
Proof.
  apply (DispatchProps.spawn_failure_reported Demo.W Demo.lower Demo.json_loads
           Demo.exn_message Demo.http_stream Demo.expanduser Demo.os_chdir
           Demo.os_getcwd Faults.popen_denied "ls" Demo.app0 Demo.w0 Demo.w0
           (AiHelper.OtherException "[Errno 13] Permission denied: '/bin/sh'")).
  - repeat split; (reflexivity || discriminate).
  - reflexivity.
Defined.

Lemma clear_and_exit_witness :
  Main.output (fst (Demo.submit " clear " Demo.app0 Demo.w0)) = [] /\
  Main.trace (fst (Demo.submit "quit" Demo.app0 Demo.w0)) = [Main.AppExit].
Proof.
  split.
  - apply (proj1 (DispatchProps.clear_and_exit Demo.W Demo.lower Demo.json_loads
                    Demo.exn_message Demo.http_stream Demo.expanduser
                    Demo.os_chdir Demo.os_getcwd Demo.popen " clear "
                    Demo.app0 Demo.w0 DemoFacts.demo_lower_keeps_slash)).
    reflexivity.
  - apply (proj2 (DispatchProps.clear_and_exit Demo.W Demo.lower Demo.json_loads
                    Demo.exn_message Demo.http_stream Demo.expanduser
                    Demo.os_chdir Demo.os_getcwd Demo.popen "quit"
                    Demo.app0 Demo.w0 DemoFacts.demo_lower_keeps_slash)).
    now right.
Defined.

Lemma submit_then_up_recalls_witness :
  Main.on_key Main.Up
    (Main.input (fst (Demo.submit " git status " Faults.app_recalling Demo.w0)))
  = Some {| Main.value := "git status";
            Main.history := ["ls"; "pwd"; "git status"; "git status"];
            Main.history_index := 0%Z |}.
Proof.
  apply (DispatchProps.submit_then_up_recalls Demo.W Demo.lower Demo.json_loads
           Demo.exn_message Demo.http_stream Demo.expanduser Demo.os_chdir
           Demo.os_getcwd Demo.popen " git status " Faults.app_recalling
           Demo.w0).
  vm_compute. discriminate.
Defined.

Lemma on_key_keeps_cursor_in_range_witness :
  exists inp',
    Main.on_key Main.Up (Main.input Faults.app_recalling) = Some inp' /\
    Main.history inp' = ["ls"; "pwd"; "git status"].
Proof.
  destruct (InputProps.on_key_keeps_cursor_in_range Main.Up
              (Main.input Faults.app_recalling))
    as (inp' & Hkey & Hhist & _).
  - unfold Props.cursor_in_range. vm_compute. split; [discriminate|reflexivity].
  - exists inp'. split; [exact Hkey|exact Hhist].
Defined.

Lemma load_history_entries_witness :
  Py.strip "ls -la" = "ls -la".
Proof.
  apply (proj1 (InputProps.load_history_entries
                  [("  ls -la  " ++ Py.nl)%str; (Faults.NBSP ++ Py.nl)%str;
                   (Faults.EM_SPACE ++ "pwd" ++ Faults.NBSP ++ Py.nl)%str])
           "ls -la").
  vm_compute. now left.
Defined.

Lemma suggestions_match_and_come_from_witness :
  Py.contains (Demo.lower "STAT") (Demo.lower "git status") = true.
Proof.
  apply (InputProps.suggestions_match_and_come_from Demo.lower "STAT"
           Faults.app_recalling "git status").
  vm_compute. now left.
Defined.

Lemma suggestions_distinct_witness :
  NoDup (Main.suggestions
           (Main.update_suggestions Demo.lower "git" Faults.app_recalling)).
Proof.
  apply InputProps.suggestions_distinct.
  assert (E : Spec.catalog_matches Demo.lower "git"
              = ["git status"; "git add ."; "git commit -m ''"; "git push";
                 "git pull"; "git log --oneline"; "git branch"; "git checkout"])
    by (vm_compute; reflexivity).
  rewrite E.
  repeat (constructor; [simpl; intuition discriminate|]). constructor.
Defined.

Lemma suggestions_bounded_and_suppressed_witness :
  Main.suggestions
    (Main.update_suggestions Demo.lower "? git" Faults.app_recalling) = [].
Proof.
  apply (proj2 (InputProps.suggestions_bounded_and_suppressed Demo.lower
                  "? git"
                  Faults.app_recalling)).
  now right.
Defined.

Lemma drain_stops_at_non_string_witness :
  Main.output
    (Main.drain Demo.exn_message
       [AiHelper.JStr "Hi "; AiHelper.JInt 7; AiHelper.JStr "lost"] Demo.app0)
  = [ Main.mkText "Hi " "white";
      Main.mkText (Py.nl ++ "  Error: 'int' object has no attribute 'split'" ++ Py.nl)
                  "bold red" ].
Proof.
  exact (f_equal Main.output
           (OutputProps.drain_stops_at_non_string Demo.exn_message ["Hi "]
              (AiHelper.JInt 7) [AiHelper.JStr "lost"] Demo.app0 eq_refl)).
Defined.

Lemma quick_suggestion_shown_first_witness :
  Main.trace
    (fst (Main.ask_ai Demo.W Demo.lower Demo.json_loads Demo.exn_message Demo.http_stream
            "disk usage" (Demo.with_key Demo.app0) Demo.w0))
  = [Main.HttpPost (AiHelper.make_request "sk-test" "disk usage")].
Proof.
  apply (proj2 (OutputProps.quick_suggestion_shown_first Demo.W Demo.lower
                  Demo.json_loads Demo.exn_message Demo.http_stream
                  "disk usage" "du -sh */ | sort -rh | head -20"
                  (Demo.with_key Demo.app0) Demo.w0 eq_refl)).
Defined.

Lemma buttons_and_actions_run_nothing_witness :
  Main.on_button_pressed Demo.upper "btn-databases" Demo.app0 = Demo.app0.
Proof.
  apply (proj2 (proj2 (OutputProps.buttons_and_actions_run_nothing
                         Demo.lower Demo.upper Demo.app0))).
  cbn. intuition discriminate.
Defined.

Lemma category_menu_lists_commands_witness :
  length (Main.output
            (Main.show_category_commands Demo.upper "databases" Demo.app0))
  = 2.
Proof.
  rewrite (proj2 (OutputProps.category_menu_lists_commands Demo.upper
                    "databases" Demo.app0)).
  - reflexivity.
  - intros name commands Hin.
    unfold Main.COMMAND_SUGGESTIONS in Hin.
    repeat (destruct Hin as [Hin|Hin];
            [injection Hin as <- _; discriminate|]).
    destruct Hin.
Defined.

Lemma menu_commands_are_in_the_catalog_witness :
  In "docker ps" Main.ALL_COMMANDS.
Proof.
  apply (proj1 (OutputProps.menu_commands_are_in_the_catalog "docker ps")
           "docker").
  vm_compute. now left.
Defined.

Lemma preview_bounded_witness :
  Main.preview "ss -tulpn" = "ss -tulpn".
Proof.
  apply (proj1 (proj2 (OutputProps.preview_bounded "ss -tulpn"))).
  vm_compute. lia.
Defined.

(** ** Texts outside ASCII *)

(** A no-break space is white space: [?] followed by one is the bare [?],
    and nothing is asked. *)
Example nbsp_after_question_mark :
  Py.strip ("?" ++ Faults.NBSP) = "?" /\
  Main.trace (fst (Demo.submit ("?" ++ Faults.NBSP)%str
                     (Demo.with_key Demo.app0) Demo.w0)) = [] /\
  Main.history (Main.input (fst (Demo.submit ("?" ++ Faults.NBSP)%str
                                   (Demo.with_key Demo.app0) Demo.w0)))
  = ["?"].
Proof. repeat split. Qed.

(** A command followed by a no-break space is spawned, and recorded,
    without it; a line of white space only is dropped. *)
Example nbsp_after_command :
  Main.trace (fst (Demo.submit ("echo hi" ++ Faults.NBSP)%str Demo.app0
                     Demo.w0))
  = [Main.Popen "echo hi" "/home/drey"] /\
  Main.history (Main.input (fst (Demo.submit ("echo hi" ++ Faults.NBSP)%str
                                   Demo.app0 Demo.w0)))
  = ["echo hi"] /\
  Demo.submit (Faults.NBSP ++ Faults.EM_SPACE)%str Demo.app0 Demo.w0
  = (Demo.app0, Demo.w0).
Proof. repeat split. Qed.

(** White space of any kind around a [cd] line is trimmed before the
    directory is changed. *)
Example nbsp_around_cd :
  Main.cwd (fst (Demo.submit (Faults.NBSP ++ "cd /tmp" ++ Faults.NBSP)%str
                   Demo.app0 Demo.w0)) = "/tmp" /\
  Main.trace (fst (Demo.submit (Faults.NBSP ++ "cd /tmp" ++ Faults.NBSP)%str
                     Demo.app0 Demo.w0)) = [Main.Chdir "/tmp"].
Proof. repeat split. Qed.

(** The lines of a history file are trimmed of white space of any kind. *)
Example history_file_with_spaces :
  Main.history
    (Main.load_history
       (Main.FileLines
          [ (Faults.NBSP ++ Py.nl)%str;
            (Faults.EM_SPACE ++ "pwd" ++ Faults.NBSP ++ Py.nl)%str ]))
  = ["pwd"].
Proof. reflexivity. Qed.

(** With a case mapping that takes the Kelvin sign to [k], a line that
    starts with [/AS], the sign and a space is a question for the
    assistant. *)
Example kelvin_slash_ask :
  Main.trace
    (fst (Faults.submit_kelvin ("/AS" ++ Faults.KELVIN ++ " disk usage")%str
            (Demo.with_key Demo.app0) Demo.w0))
  = [Main.HttpPost (AiHelper.make_request "sk-test" "disk usage")].
Proof. reflexivity. Qed.

(** With it the first key that matches is found through the sign too. *)
Example kelvin_quick_suggestion :
  AiHelper.get_quick_suggestion Faults.lower_kelvin
    ("dis" ++ Faults.KELVIN ++ " usage git status")%str
  = Some "du -sh */ | sort -rh | head -20".
Proof. reflexivity. Qed.

(** And the suggestions for the sign followed by [ill] are the commands
    that contain [kill]. *)
Example kelvin_suggestions :
  Main.suggestions
    (Main.update_suggestions Faults.lower_kelvin (Faults.KELVIN ++ "ill")%str
       Demo.app0)
  = ["kill"; "killall"; "pkill"].
Proof. reflexivity. Qed.
